(** * Todo-React-Native: the task list controller of [TodoApp]

    A shallow embedding of the state held by the [TodoApp] component
    (its [useState] cells), of the event handlers that update it
    ([addTodo], [toggleTodo], [deleteTodo], [startEdit], [saveEdit],
    [cancelEdit]) and of the values derived on every render
    ([filteredTodos], [completedCount], [totalCount], the width of the
    progress bar, the rows of the list), followed by the properties of the
    specification.

    Conventions.
    - A JavaScript string is a sequence of UTF-16 code units: [string] is a
      sequence of numbers (each below 65536).  [trim] and [includes] are
      the ECMAScript functions.  A string literal of this file is UTF-8
      text and stands for the UTF-16 code units of that text.
    - [String.prototype.toLowerCase] follows the case tables of the
      Unicode version that the JavaScript engine carries.  It is a
      parameter, [Runtime.toLowerCase rt], of which two facts are used:
      on strings of Basic Latin it maps A-Z to a-z and nothing else, and
      it is idempotent.  [Engine.excerpt] is the function on an excerpt of
      the tables (Basic Latin, Latin-1 Supplement, U+0130 and the Greek
      letters, with the final sigma); closed examples are computed with
      it.
    - A JavaScript number is a binary64 floating-point number: [float],
      with the operations of IEEE 754 that the kernel provides.
    - [Date.now()] and [new Date()] read the system clock; each reading is an
      explicit argument, in milliseconds since the epoch.
    - A handler runs to completion on the current state, and the component
      is rendered again before the next event, so that the variables a
      handler closes over hold the current state: a handler is a function
      [State -> State]. *)

From Stdlib Require Import ZArith NArith List String Ascii Bool Lia.
From Stdlib Require Import Floats.
From Stdlib.Strings Require Byte.
From stdpp Require Import base list strings pretty.

(** ** Strings *)

Module JsString.

(** A string of UTF-16 code units. *)
Inductive string :=
| EmptyString
| String (c : N) (s : string).

Fixpoint append (a b : string) : string :=
  match a with
  | EmptyString => b
  | String c a' => String c (append a' b)
  end.

(** [a === b] on strings. *)
Fixpoint eqb (a b : string) : bool :=
  match a, b with
  | EmptyString, EmptyString => true
  | String c a', String d b' => N.eqb c d && eqb a' b'
  | _, _ => false
  end.

Fixpoint ofUnits (l : list N) : string :=
  match l with
  | [] => EmptyString
  | c :: l' => String c (ofUnits l')
  end.

Fixpoint units (s : string) : list N :=
  match s with
  | EmptyString => []
  | String c s' => c :: units s'
  end.

(** The string of a text of 8-bit characters, such as a numeral. *)
Fixpoint ofAscii (x : String.string) : string :=
  match x with
  | String.EmptyString => EmptyString
  | String.String c x' => String (N_of_ascii c) (ofAscii x')
  end.

(** *** Literals *)

(** The code units of a code point: itself, or a surrogate pair. *)
Definition unitsOfCodePoint (cp : N) : list N :=
  if (cp <? 65536)%N then [cp]
  else [ (55296 + (cp - 65536) / 1024)%N; (56320 + (cp - 65536) mod 1024)%N ].

Definition continuation (b : N) : bool := ((128 <=? b) && (b <? 192))%N.

(** The code points of UTF-8 text, given byte by byte. *)
Fixpoint codePointsOfUtf8 (l : list N) : option (list N) :=
  match l with
  | [] => Some []
  | b0 :: r0 =>
      if (b0 <? 128)%N then option_map (cons b0) (codePointsOfUtf8 r0)
      else if ((194 <=? b0) && (b0 <? 224))%N then
        match r0 with
        | b1 :: r1 =>
            if continuation b1
            then option_map (cons ((b0 - 192) * 64 + (b1 - 128))%N) (codePointsOfUtf8 r1)
            else None
        | _ => None
        end
      else if ((224 <=? b0) && (b0 <? 240))%N then
        match r0 with
        | b1 :: b2 :: r2 =>
            if continuation b1 && continuation b2
            then option_map
                   (cons ((b0 - 224) * 4096 + (b1 - 128) * 64 + (b2 - 128))%N)
                   (codePointsOfUtf8 r2)
            else None
        | _ => None
        end
      else if ((240 <=? b0) && (b0 <? 245))%N then
        match r0 with
        | b1 :: b2 :: b3 :: r3 =>
            if continuation b1 && continuation b2 && continuation b3
            then option_map
                   (cons ((b0 - 240) * 262144 + (b1 - 128) * 4096
                          + (b2 - 128) * 64 + (b3 - 128))%N)
                   (codePointsOfUtf8 r3)
            else None
        | _ => None
        end
      else None
  end.

Definition ofUtf8 (l : list Byte.byte) : option string :=
  option_map (fun cps => ofUnits (concat (map unitsOfCodePoint cps)))
             (codePointsOfUtf8 (map Byte.to_N l)).

(** The UTF-8 bytes of a code point. *)
Definition utf8OfCodePoint (cp : N) : list N :=
  if (cp <? 128)%N then [cp]
  else if (cp <? 2048)%N then [ (192 + cp / 64)%N; (128 + cp mod 64)%N ]
  else if (cp <? 65536)%N then
    [ (224 + cp / 4096)%N; (128 + (cp / 64) mod 64)%N; (128 + cp mod 64)%N ]
  else
    [ (240 + cp / 262144)%N; (128 + (cp / 4096) mod 64)%N;
      (128 + (cp / 64) mod 64)%N; (128 + cp mod 64)%N ].

Definition isHigh (c : N) : bool := ((55296 <=? c) && (c <? 56320))%N.
Definition isLow (c : N) : bool := ((56320 <=? c) && (c <? 57344))%N.

(** The code points of a string; none when a surrogate stands alone. *)
Fixpoint codePoints (s : string) : option (list N) :=
  match s with
  | EmptyString => Some []
  | String c r =>
      if isHigh c then
        match r with
        | String d r' =>
            if isLow d
            then option_map (cons (65536 + (c - 55296) * 1024 + (d - 56320))%N)
                            (codePoints r')
            else None
        | EmptyString => None
        end
      else if isLow c then None
      else option_map (cons c) (codePoints r)
  end.

Fixpoint allBytes (l : list N) : option (list Byte.byte) :=
  match l with
  | [] => Some []
  | b :: l' =>
      match Byte.of_N b, allBytes l' with
      | Some x, Some r => Some (x :: r)
      | _, _ => None
      end
  end.

Definition toUtf8 (s : string) : option (list Byte.byte) :=
  match codePoints s with
  | Some cps => allBytes (concat (map utf8OfCodePoint cps))
  | None => None
  end.

(** *** The functions of [String.prototype] that the component calls *)

(** WhiteSpace and LineTerminator: TAB, LF, VT, FF, CR, SP, NBSP, U+1680,
    U+2000..U+200A, LS, PS, U+202F, U+205F, U+3000 and U+FEFF. *)
Definition isWhiteSpace (c : N) : bool :=
  ((9 <=? c) && (c <=? 13) || (c =? 32) || (c =? 160) || (c =? 5760)
   || (8192 <=? c) && (c <=? 8202) || (c =? 8232) || (c =? 8233)
   || (c =? 8239) || (c =? 8287) || (c =? 12288) || (c =? 65279))%N.

Fixpoint trimStart (s : string) : string :=
  match s with
  | EmptyString => EmptyString
  | String c s' => if isWhiteSpace c then trimStart s' else s
  end.

Fixpoint trimEnd (s : string) : string :=
  match s with
  | EmptyString => EmptyString
  | String c s' =>
      match trimEnd s' with
      | EmptyString => if isWhiteSpace c then EmptyString else String c EmptyString
      | r => String c r
      end
  end.

(** [String.prototype.trim] *)
Definition trim (s : string) : string := trimEnd (trimStart s).

(** A string used as a condition: only the empty string is falsy. *)
Definition truthy (s : string) : bool :=
  match s with
  | EmptyString => false
  | String _ _ => true
  end.

Fixpoint startsWith (s q : string) {struct q} : bool :=
  match q, s with
  | EmptyString, _ => true
  | String _ _, EmptyString => false
  | String b q', String a s' => N.eqb a b && startsWith s' q'
  end.

(** [String.prototype.includes]: does [q] occur in [s]? *)
Fixpoint includes (s q : string) : bool :=
  startsWith s q ||
  match s with
  | EmptyString => false
  | String _ s' => includes s' q
  end.

(** [s] consists of white space only. *)
Fixpoint blank (s : string) : bool :=
  match s with
  | EmptyString => true
  | String c s' => isWhiteSpace c && blank s'
  end.

(** *** Basic Latin *)

(** Every unit is below 128. *)
Fixpoint isAscii (s : string) : bool :=
  match s with
  | EmptyString => true
  | String c s' => (c <? 128)%N && isAscii s'
  end.

Definition asciiLowerUnit (c : N) : N :=
  if ((65 <=? c) && (c <=? 90))%N then (c + 32)%N else c.

(** A-Z made a-z, unit by unit. *)
Fixpoint asciiLower (s : string) : string :=
  match s with
  | EmptyString => EmptyString
  | String c s' => String (asciiLowerUnit c) (asciiLower s')
  end.

End JsString.

Import JsString.

Declare Scope js_scope.
Delimit Scope js_scope with js.
String Notation string ofUtf8 toUtf8 : js_scope.
Infix "+:+" := append (at level 60, right associativity) : js_scope.
Local Open Scope js_scope.

(** ** The engine *)

Module Runtime.

(** [String.prototype.toLowerCase] as the engine provides it, with the
    two facts used of it. *)
Record t := mk {
  toLowerCase : string -> string;
  toLowerCase_ascii :
    forall x, isAscii x = true -> toLowerCase x = asciiLower x;
  toLowerCase_idempotent :
    forall x, toLowerCase (toLowerCase x) = toLowerCase x
}.

End Runtime.

(** [toLowerCase] on an excerpt of the Unicode case tables: the lower-case
    mappings and the properties Cased and Case_Ignorable of the code points
    U+0000..U+00FF, U+0130, U+0307, U+0391..U+03A9 and U+03B1..U+03C9.
    Other code units are left as they are. *)
Module Excerpt.

Definition capitalSigma : N := 931.
Definition smallSigma : N := 963.
Definition finalSigma : N := 962.

(** The lower-case mapping of a code point: A-Z, U+00C0..U+00DE but for
    U+00D7, and the Greek capitals, move up by 32; U+0130 becomes i
    followed by U+0307. *)
Definition lowerUnit (c : N) : list N :=
  if ((65 <=? c) && (c <=? 90))%N then [(c + 32)%N]
  else if ((192 <=? c) && (c <=? 222) && negb (c =? 215))%N then [(c + 32)%N]
  else if (c =? 304)%N then [105%N; 775%N]
  else if ((913 <=? c) && (c <=? 937) && negb (c =? 930))%N then [(c + 32)%N]
  else [c].

(** The property Cased. *)
Definition cased (c : N) : bool :=
  ((65 <=? c) && (c <=? 90) || (97 <=? c) && (c <=? 122)
   || (c =? 170) || (c =? 181) || (c =? 186)
   || (192 <=? c) && (c <=? 214) || (216 <=? c) && (c <=? 246)
   || (248 <=? c) && (c <=? 255) || (c =? 304)
   || (913 <=? c) && (c <=? 929) || (931 <=? c) && (c <=? 937)
   || (945 <=? c) && (c <=? 969))%N.

(** The property Case_Ignorable. *)
Definition caseIgnorable (c : N) : bool :=
  ((c =? 39) || (c =? 46) || (c =? 58) || (c =? 94) || (c =? 96)
   || (c =? 168) || (c =? 173) || (c =? 175) || (c =? 180)
   || (c =? 183) || (c =? 184) || (c =? 775))%N.

(** Does a cased letter follow, after case-ignorable characters only? *)
Fixpoint followedByCased (s : string) : bool :=
  match s with
  | EmptyString => false
  | String d r =>
      if cased d then true
      else if caseIgnorable d then followedByCased r
      else false
  end.

(** Does a cased letter precede, with case-ignorable characters only in
    between, once [c] is read after a prefix of which [prev] says so? *)
Definition precededAfter (prev : bool) (c : N) : bool :=
  if cased c then true
  else if caseIgnorable c then prev
  else false.

(** The capital sigma becomes the final sigma when a cased letter precedes
    it and none follows it, and the small sigma otherwise. *)
Fixpoint lowerFrom (prev : bool) (s : string) : string :=
  match s with
  | EmptyString => EmptyString
  | String c r =>
      append
        (ofUnits
           (if (c =? capitalSigma)%N
            then (if prev && negb (followedByCased r)
                  then [finalSigma] else [smallSigma])
            else lowerUnit c))
        (lowerFrom (precededAfter prev c) r)
  end.

Definition toLowerCase (s : string) : string := lowerFrom false s.

(** A unit that [lowerFrom] leaves as it is, wherever it stands. *)
Definition settledUnit (c : N) : bool :=
  negb (c =? capitalSigma)%N
  && match lowerUnit c with
     | [d] => (d =? c)%N
     | _ => false
     end.

Fixpoint settled (s : string) : bool :=
  match s with
  | EmptyString => true
  | String c s' => settledUnit c && settled s'
  end.

End Excerpt.
(** ** Data model *)

Inductive Category := personal | work | shopping | health.
Inductive Priority := low | medium | high.

(** The status filter; its values are [Filter.all], [Filter.active] and
    [Filter.completed]. *)
Module Filter.
Inductive t := all | active | completed.

Definition eqb (a b : t) : bool :=
  match a, b with
  | all, all | active, active | completed, completed => true
  | _, _ => false
  end.
End Filter.

(** A [Date], as milliseconds since the epoch. *)
Definition Date := Z.

Record Todo := mkTodo {
  id : string;
  text : string;
  completed : bool;
  category : Category;
  priority : Priority;
  createdAt : Date
}.

Module TodoApp.
Import JsString.

(** The [useState] cells of the component, but for [keyboardHeight], which
    only the layout reads. *)
Record State := mkState {
  todos : list Todo;
  inputText : string;
  selectedCategory : Category;
  selectedPriority : Priority;
  filter : Filter.t;
  searchQuery : string;
  editingId : option string;
  editingText : string;
  showAddForm : bool
}.

Definition setTodos (l : list Todo) (s : State) : State :=
  mkState l (inputText s) (selectedCategory s) (selectedPriority s)
          (filter s) (searchQuery s) (editingId s) (editingText s) (showAddForm s).
Definition setInputText (x : string) (s : State) : State :=
  mkState (todos s) x (selectedCategory s) (selectedPriority s)
          (filter s) (searchQuery s) (editingId s) (editingText s) (showAddForm s).
Definition setSelectedCategory (c : Category) (s : State) : State :=
  mkState (todos s) (inputText s) c (selectedPriority s)
          (filter s) (searchQuery s) (editingId s) (editingText s) (showAddForm s).
Definition setSelectedPriority (p : Priority) (s : State) : State :=
  mkState (todos s) (inputText s) (selectedCategory s) p
          (filter s) (searchQuery s) (editingId s) (editingText s) (showAddForm s).
Definition setFilter (f : Filter.t) (s : State) : State :=
  mkState (todos s) (inputText s) (selectedCategory s) (selectedPriority s)
          f (searchQuery s) (editingId s) (editingText s) (showAddForm s).
Definition setSearchQuery (q : string) (s : State) : State :=
  mkState (todos s) (inputText s) (selectedCategory s) (selectedPriority s)
          (filter s) q (editingId s) (editingText s) (showAddForm s).
Definition setEditingId (e : option string) (s : State) : State :=
  mkState (todos s) (inputText s) (selectedCategory s) (selectedPriority s)
          (filter s) (searchQuery s) e (editingText s) (showAddForm s).
Definition setEditingText (x : string) (s : State) : State :=
  mkState (todos s) (inputText s) (selectedCategory s) (selectedPriority s)
          (filter s) (searchQuery s) (editingId s) x (showAddForm s).
Definition setShowAddForm (b : bool) (s : State) : State :=
  mkState (todos s) (inputText s) (selectedCategory s) (selectedPriority s)
          (filter s) (searchQuery s) (editingId s) (editingText s) b.

(** The initial values given to [useState]. *)
Definition initialState : State :=
  mkState [] "" personal medium Filter.all "" None "" false.

(** The sample data of the first effect; one clock reading per task. *)
Definition sampleTodos (t1 t2 t3 : Date) : list Todo :=
  [ mkTodo "1" "Complete project presentation" false work high t1;
    mkTodo "2" "Buy groceries for the week" false shopping medium t2;
    mkTodo "3" "Morning workout" true health low t3 ].

(** The effect run once, when the component is mounted. *)
Definition mount (t1 t2 t3 : Date) (s : State) : State :=
  setTodos (sampleTodos t1 t2 t3) s.

(** The state the user first interacts with. *)
Definition startup (t1 t2 t3 : Date) : State := mount t1 t2 t3 initialState.

(** [Date.now().toString()]: the decimal numeral of the reading. *)
Definition newId (now : Z) : string := ofAscii (pretty now).

(** The task built by [addTodo] from the draft. *)
Definition newTodo (now : Z) (created : Date) (s : State) : Todo :=
  mkTodo (newId now) (trim (inputText s)) false
         (selectedCategory s) (selectedPriority s) created.

Definition addTodo (now : Z) (created : Date) (s : State) : State :=
  if truthy (trim (inputText s)) then
    setShowAddForm false
      (setInputText "" (setTodos (newTodo now created s :: todos s) s))
  else s.

(** [{ ...todo, completed: c }] and [{ ...todo, text: x }] *)
Definition withCompleted (c : bool) (todo : Todo) : Todo :=
  mkTodo (id todo) (text todo) c (category todo) (priority todo) (createdAt todo).
Definition withText (x : string) (todo : Todo) : Todo :=
  mkTodo (id todo) x (completed todo) (category todo) (priority todo) (createdAt todo).

(** The callback mapped over the list by [toggleTodo]. *)
Definition toggled (i : string) (todo : Todo) : Todo :=
  if JsString.eqb (id todo) i
  then withCompleted (negb (completed todo)) todo
  else todo.

Definition toggleTodo (i : string) (s : State) : State :=
  setTodos (map (toggled i) (todos s)) s.

(** The dialog of [Alert.alert]: a list of buttons, each with an optional
    callback.  The user presses one of them or dismisses the dialog. *)
Record AlertButton := mkButton {
  label : string;
  onPress : option (State -> State)
}.

Inductive Outcome := Pressed (k : nat) | Dismissed.

Definition Alert_alert (buttons : list AlertButton) (o : Outcome) (s : State) : State :=
  match o with
  | Dismissed => s
  | Pressed k =>
      match nth_error buttons k with
      | Some b => match onPress b with Some f => f s | None => s end
      | None => s
      end
  end.

(** The buttons of the confirmation dialog, in the order of the source. *)
Definition pressCancel : Outcome := Pressed 0.
Definition pressDelete : Outcome := Pressed 1.

Definition deleteTodo (i : string) (o : Outcome) (s : State) : State :=
  Alert_alert
    [ mkButton "Cancel" None;
      mkButton "Delete"
        (Some (setTodos
                 (List.filter (fun todo => negb (JsString.eqb (id todo) i)) (todos s)))) ]
    o s.

Definition startEdit (todo : Todo) (s : State) : State :=
  setEditingText (text todo) (setEditingId (Some (id todo)) s).

(** [todo.id === editingId], where [editingId] may be [null]. *)
Definition isEditing (e : option string) (todo : Todo) : bool :=
  match e with
  | Some i => JsString.eqb (id todo) i
  | None => false
  end.

Definition saveEdit (s : State) : State :=
  let s1 :=
    if truthy (trim (editingText s)) then
      setTodos
        (map (fun todo =>
                if isEditing (editingId s) todo
                then withText (trim (editingText s)) todo
                else todo)
             (todos s)) s
    else s in
  setEditingText "" (setEditingId None s1).

Definition cancelEdit (s : State) : State :=
  setEditingText "" (setEditingId None s).

(** Is the text of [todo] overwritten by [saveEdit] in state [s]? *)
Definition overwritten (s : State) (todo : Todo) : bool :=
  truthy (trim (editingText s)) && isEditing (editingId s) todo.

(** *** Derived values *)

Definition matchesFilter (f : Filter.t) (todo : Todo) : bool :=
  Filter.eqb f Filter.all
  || (Filter.eqb f Filter.active && negb (completed todo))
  || (Filter.eqb f Filter.completed && completed todo).

Definition matchesSearch (rt : Runtime.t) (q : string) (todo : Todo) : bool :=
  includes (Runtime.toLowerCase rt (text todo)) (Runtime.toLowerCase rt q).

Definition filteredTodos (rt : Runtime.t) (s : State) : list Todo :=
  List.filter
    (fun todo =>
       matchesFilter (filter s) todo && matchesSearch rt (searchQuery s) todo)
    (todos s).

Definition completedCount (s : State) : nat :=
  length (List.filter (fun todo => completed todo) (todos s)).

Definition totalCount (s : State) : nat := length (todos s).

(** A length as a number; lengths are below 2^32. *)
Definition num (n : nat) : float := PrimFloat.of_uint63 (Uint63.of_Z (Z.of_nat n)).

(** The width of the progress bar, in percent. *)
Definition progressWidth (s : State) : float :=
  if (0 <? totalCount s)%nat
  then (num (completedCount s) / num (totalCount s) * 100)%float
  else 0%float.

(** The completion ratio: the quotient that [progressWidth] multiplies by
    100, under the same test. *)
Definition completionRatio (s : State) : float :=
  if (0 <? totalCount s)%nat
  then (num (completedCount s) / num (totalCount s))%float
  else 0%float.

(** What the specification asks of a visible task: the status filter ... *)
Definition passesStatus (f : Filter.t) (todo : Todo) : Prop :=
  match f with
  | Filter.all => True
  | Filter.active => completed todo = false
  | Filter.completed => completed todo = true
  end.

(** ... and the lower-case form of the query occurring in the lower-case
    form of the text. *)
Definition occursLowered (rt : Runtime.t) (q x : string) : Prop :=
  exists pre post,
    Runtime.toLowerCase rt x = pre +:+ Runtime.toLowerCase rt q +:+ post.

(** On Basic Latin: some substring [u] of [x] is [q] but for the case of
    the letters A-Z. *)
Definition ciSubstring (q x : string) : Prop :=
  exists pre u post, x = pre +:+ u +:+ post /\ asciiLower u = asciiLower q.

(** *** Events *)

Inductive Event :=
| AddTodo (now : Z) (created : Date)
| ToggleTodo (i : string)
| DeleteTodo (i : string) (o : Outcome)
| StartEdit (todo : Todo)
| SaveEdit
| CancelEdit
| SetInputText (x : string)
| SetSelectedCategory (c : Category)
| SetSelectedPriority (p : Priority)
| SetFilter (f : Filter.t)
| SetSearchQuery (q : string)
| SetEditingText (x : string)
| CloseAddForm
| ToggleAddForm.

Definition step (e : Event) (s : State) : State :=
  match e with
  | AddTodo now created => addTodo now created s
  | ToggleTodo i => toggleTodo i s
  | DeleteTodo i o => deleteTodo i o s
  | StartEdit todo => startEdit todo s
  | SaveEdit => saveEdit s
  | CancelEdit => cancelEdit s
  | SetInputText x => setInputText x s
  | SetSelectedCategory c => setSelectedCategory c s
  | SetSelectedPriority p => setSelectedPriority p s
  | SetFilter f => setFilter f s
  | SetSearchQuery q => setSearchQuery q s
  | SetEditingText x => setEditingText x s
  | CloseAddForm => setShowAddForm false s
  | ToggleAddForm => setShowAddForm (negb (showAddForm s)) s
  end.

Fixpoint run (tr : list Event) (s : State) : State :=
  match tr with
  | [] => s
  | e :: tr' => run tr' (step e s)
  end.

Definition ids (s : State) : list string := map id (todos s).

(** No stored task has the identifier [i]. *)
Definition unused (i : string) (s : State) : bool :=
  forallb (fun todo => negb (JsString.eqb (id todo) i)) (todos s).

(** Along [tr], started in [s], every [addTodo] that stores a task reads a
    clock whose numeral is the identifier of no stored task. *)
Fixpoint freshClock (tr : list Event) (s : State) : bool :=
  match tr with
  | [] => true
  | e :: tr' =>
      match e with
      | AddTodo now _ =>
          implb (truthy (trim (inputText s))) (unused (newId now) s)
      | _ => true
      end && freshClock tr' (step e s)
  end.

(** No [addTodo] of [tr] reads a clock whose numeral is [i]. *)
Definition createsNo (i : string) (tr : list Event) : bool :=
  forallb (fun e => match e with
                    | AddTodo now _ => negb (JsString.eqb (newId now) i)
                    | _ => true
                    end) tr.

(** The operation [create(text, category, priority)] of the interface:
    the draft is filled in, then [addTodo] runs. *)
Definition create (x : string) (c : Category) (p : Priority)
           (now : Z) (created : Date) (s : State) : State :=
  addTodo now created
    (setSelectedPriority p (setSelectedCategory c (setInputText x s))).

End TodoApp.

(** ** The tables of categories and priorities, and the rendered list *)

Module CategoryInfo.
(** An entry of [CATEGORIES]; the icon is kept as its UTF-16 code units. *)
Record t := mk { id : string; label : string; color : string; icon : list N }.
End CategoryInfo.

Module PriorityInfo.
(** An entry of [PRIORITIES]. *)
Record t := mk { id : string; label : string; color : string }.
End PriorityInfo.

Module Render.
Import JsString TodoApp.

(** The string that a category, or a priority, is in the source. *)
Definition categoryId (c : Category) : string :=
  match c with
  | personal => "personal"
  | work => "work"
  | shopping => "shopping"
  | health => "health"
  end.

Definition priorityId (p : Priority) : string :=
  match p with
  | low => "low"
  | medium => "medium"
  | high => "high"
  end.

(** The casts [x as Todo['category']] and [x as Todo['priority']]: the
    member of the union type that the string [x] is, if it is one. *)
Definition asCategory (x : string) : option Category :=
  List.find (fun c => JsString.eqb (categoryId c) x) [personal; work; shopping; health].

Definition asPriority (x : string) : option Priority :=
  List.find (fun p => JsString.eqb (priorityId p) x) [low; medium; high].

Definition CATEGORIES : list CategoryInfo.t :=
  [ CategoryInfo.mk "personal" "Personal" "bg-purple-500" [55357%N; 56420%N];
    CategoryInfo.mk "work" "Work" "bg-blue-500" [55357%N; 56508%N];
    CategoryInfo.mk "shopping" "Shopping" "bg-green-500" [55357%N; 57042%N];
    CategoryInfo.mk "health" "Health" "bg-red-400" [10084%N; 65039%N] ].

Definition PRIORITIES : list PriorityInfo.t :=
  [ PriorityInfo.mk "low" "Low" "text-gray-500";
    PriorityInfo.mk "medium" "Medium" "text-yellow-500";
    PriorityInfo.mk "high" "High" "text-red-500" ].

(** [Array.prototype.find] gives [undefined], here [None], when no entry
    passes the test. *)
Definition getCategoryInfo (c : Category) : option CategoryInfo.t :=
  List.find (fun cat => JsString.eqb (CategoryInfo.id cat) (categoryId c)) CATEGORIES.

Definition getPriorityInfo (p : Priority) : option PriorityInfo.t :=
  List.find (fun pri => JsString.eqb (PriorityInfo.id pri) (priorityId p)) PRIORITIES.

(** The class of the priority stripe of a row. *)
Definition stripeOf (p : Priority) : string :=
  if JsString.eqb (priorityId p) "high" then "bg-red-500"
  else if JsString.eqb (priorityId p) "medium" then "bg-yellow-500"
  else "bg-gray-300".

(** The middle of a row: the text input of the task being edited, with its
    Save and Cancel buttons, or the text of the task with its category and
    priority. *)
Inductive Content :=
| Editor (value : string)
| Display (body : string) (cat : option CategoryInfo.t) (pri : option PriorityInfo.t).

(** A row of the list: its React key, the stripe, the check box, the
    middle, and whether the delete button is there. *)
Record Row := mkRow {
  key : string;
  stripe : string;
  checked : bool;
  content : Content;
  deleteButton : bool
}.

Definition renderRow (s : State) (todo : Todo) : Row :=
  let categoryInfo := getCategoryInfo (category todo) in
  let priorityInfo := getPriorityInfo (priority todo) in
  mkRow (id todo)
        (stripeOf (priority todo))
        (completed todo)
        (if isEditing (editingId s) todo
         then Editor (editingText s)
         else Display (text todo) categoryInfo priorityInfo)
        (negb (isEditing (editingId s) todo)).

Definition rows (rt : Runtime.t) (s : State) : list Row :=
  map (renderRow s) (filteredTodos rt s).

Definition inEditor (r : Row) : bool :=
  match content r with
  | Editor _ => true
  | Display _ _ _ => false
  end.

(** The two lines shown in place of an empty list. *)
Definition emptyState (rt : Runtime.t) (s : State) : option (string * string) :=
  if (length (filteredTodos rt s) =? 0)%nat then
    Some (if truthy (searchQuery s)
          then ("No matching tasks", "Try adjusting your search or filter")
          else ("No tasks yet", "Add your first task to get started!"))
  else None.

(** The chips of the add form: the key of each and whether it is shown as
    selected.  The form is there when [showAddForm] holds. *)
Definition categoryChips (s : State) : list (string * bool) :=
  map (fun cat => (CategoryInfo.id cat,
                   JsString.eqb (categoryId (selectedCategory s)) (CategoryInfo.id cat)))
      CATEGORIES.

Definition priorityChips (s : State) : list (string * bool) :=
  map (fun pri => (PriorityInfo.id pri,
                   JsString.eqb (priorityId (selectedPriority s)) (PriorityInfo.id pri)))
      PRIORITIES.

End Render.

(** ** Predicates on texts, states and runs *)

Module Runs.
Import JsString TodoApp.

Definition firstUnit (x : string) : option N :=
  match x with
  | EmptyString => None
  | String c _ => Some c
  end.

Fixpoint lastUnit (x : string) : option N :=
  match x with
  | EmptyString => None
  | String c x' => match lastUnit x' with None => Some c | r => r end
  end.

(** A text that is not empty and that [trim] leaves as it is. *)
Definition tidyText (x : string) : bool := truthy x && JsString.eqb (trim x) x.

(** Every stored text is tidy. *)
Definition tidy (s : State) : bool :=
  forallb (fun todo => tidyText (text todo)) (todos s).

(** The clock readings that the [addTodo] events of a run take their
    identifiers from. *)
Fixpoint readings (tr : list Event) : list Z :=
  match tr with
  | [] => []
  | AddTodo now _ :: tr' => now :: readings tr'
  | _ :: tr' => readings tr'
  end.

(** No reading of [l] has the identifier of a stored task as its numeral. *)
Definition allUnused (l : list Z) (s : State) : bool :=
  forallb (fun now => unused (newId now) s) l.

(** The events after which the list of tasks may differ. *)
Definition touchesTodos (e : Event) : bool :=
  match e with
  | AddTodo _ _ | ToggleTodo _ | DeleteTodo _ _ | SaveEdit => true
  | _ => false
  end.

End Runs.

Local Open Scope list_scope.
Local Open Scope Z_scope.

(** ** Facts about the string functions *)

Module JsStringFacts.
Import JsString.

Lemma str_eqb_eq a b : JsString.eqb a b = true <-> a = b.
Proof.
  revert b; induction a as [|c a IH]; intros [|d b]; simpl;
    try (split; [discriminate | congruence]); [tauto|].
  rewrite andb_true_iff, N.eqb_eq, IH. split; [intros [-> ->] | intros [= -> ->]]; auto.
Qed.

Lemma str_eqb_refl a : JsString.eqb a a = true.
Proof. now apply str_eqb_eq. Qed.

Lemma str_eqb_neq a b : JsString.eqb a b = false <-> a <> b.
Proof.
  rewrite <- str_eqb_eq. destruct (JsString.eqb a b); split; congruence.
Qed.

Lemma append_nil_r a : a +:+ "" = a.
Proof. induction a as [|c a IH]; simpl; [reflexivity | now rewrite IH]. Qed.

Lemma append_assoc3 (a b c : string) : (a +:+ b) +:+ c = a +:+ b +:+ c.
Proof. induction a as [|x a IH]; simpl; [reflexivity | now rewrite IH]. Qed.

Lemma ofAscii_inj x y : ofAscii x = ofAscii y -> x = y.
Proof.
  revert y; induction x as [|c x IH]; intros [|d y]; simpl; try discriminate;
    [reflexivity|].
  intros [= E1 E2]. f_equal; [|now apply IH].
  rewrite <- (ascii_N_embedding c), <- (ascii_N_embedding d). now rewrite E1.
Qed.

Lemma startsWith_spec s q :
  startsWith s q = true <-> exists post, s = q +:+ post.
Proof.
  revert s; induction q as [|b q IH]; intros s; simpl.
  - split; [intros _; now exists s | reflexivity].
  - destruct s as [|a s]; simpl.
    + split; [discriminate | intros [post H]; discriminate].
    + rewrite andb_true_iff, N.eqb_eq, IH. split.
      * intros [-> [post ->]]. now exists post.
      * intros [post H]. injection H as -> ->. split; [reflexivity | now exists post].
Qed.

Lemma includes_spec s q :
  includes s q = true <-> exists pre post, s = pre +:+ q +:+ post.
Proof.
  induction s as [|a s IH]; simpl.
  - rewrite orb_false_r, startsWith_spec. split.
    + intros [post H]. now exists "", post.
    + intros [[|c pre] [post H]]; [now exists post | discriminate].
  - rewrite orb_true_iff, IH, startsWith_spec. split.
    + intros [[post H] | [pre [post H]]].
      * now exists "", post.
      * exists (String a pre), post. simpl. now rewrite H.
    + intros [[|c pre] [post H]]; simpl in H.
      * left. now exists post.
      * right. injection H as -> H. now exists pre, post.
Qed.

Lemma includes_empty s : includes s "" = true.
Proof. destruct s; reflexivity. Qed.

Lemma includes_trans a b c :
  includes a b = true -> includes b c = true -> includes a c = true.
Proof.
  rewrite !includes_spec. intros (p1 & q1 & ->) (p2 & q2 & ->).
  exists (p1 +:+ p2), (q2 +:+ q1). now rewrite !append_assoc3.
Qed.

Lemma asciiLower_app a b : asciiLower (a +:+ b) = asciiLower a +:+ asciiLower b.
Proof. induction a as [|c a IH]; simpl; [reflexivity | now rewrite IH]. Qed.

Lemma asciiLower_split s x y :
  asciiLower s = x +:+ y ->
  exists a b, s = a +:+ b /\ asciiLower a = x /\ asciiLower b = y.
Proof.
  revert s; induction x as [|c x IH]; intros s H; simpl in H.
  - now exists "", s.
  - destruct s as [|d s]; [discriminate|]. simpl in H. injection H as Hc H.
    destruct (IH _ H) as (a & b & -> & <- & <-).
    exists (String d a), b. simpl. now rewrite Hc.
Qed.

Lemma isAscii_app a b : isAscii (a +:+ b) = isAscii a && isAscii b.
Proof.
  induction a as [|c a IH]; simpl; [reflexivity|]. now rewrite IH, andb_assoc.
Qed.

(** [trim] yields the empty string exactly on white space only. *)
Lemma trimStart_blank s : blank s = true -> trimStart s = "".
Proof.
  induction s as [|c s IH]; simpl; [reflexivity|].
  intros [Hc Hs]%andb_true_iff. rewrite Hc. auto.
Qed.

Lemma trimEnd_empty s : trimEnd s = "" <-> blank s = true.
Proof.
  induction s as [|c s IH]; simpl; [easy|].
  destruct (trimEnd s) as [|d r].
  - destruct (isWhiteSpace c); simpl; [tauto|]. split; discriminate.
  - split; [discriminate|]. intros [_ Hs]%andb_true_iff.
    apply IH in Hs. discriminate.
Qed.

Lemma blank_trimStart s : blank (trimStart s) = blank s.
Proof.
  induction s as [|c s IH]; simpl; [reflexivity|].
  destruct (isWhiteSpace c) eqn:Hc; simpl; [assumption | now rewrite Hc].
Qed.

Lemma trim_empty s : trim s = "" <-> blank s = true.
Proof. unfold trim. now rewrite trimEnd_empty, blank_trimStart. Qed.

Lemma truthy_false s : truthy s = false <-> s = "".
Proof. destruct s; simpl; split; congruence. Qed.

Lemma truthy_true s : truthy s = true <-> s <> "".
Proof. destruct s; simpl; split; congruence. Qed.

End JsStringFacts.

(** ** The excerpt of the case tables *)

Module Engine.
Import JsString JsStringFacts Excerpt.

Lemma below_1024 (P : N -> bool) :
  forallb (fun n => P (N.of_nat n)) (seq 0 1024) = true ->
  forall c, (c < 1024)%N -> P c = true.
Proof.
  intros H c Hc. rewrite forallb_forall in H.
  rewrite <- (N2Nat.id c). apply H. apply in_seq. lia.
Qed.

Lemma lowerUnit_above c : (1024 <= c)%N -> lowerUnit c = [c].
Proof.
  intros H. unfold lowerUnit.
  replace (c <=? 90)%N with false by (symmetry; apply N.leb_gt; lia).
  replace (c <=? 222)%N with false by (symmetry; apply N.leb_gt; lia).
  replace (c =? 304)%N with false by (symmetry; apply N.eqb_neq; lia).
  replace (c <=? 937)%N with false by (symmetry; apply N.leb_gt; lia).
  now rewrite !andb_false_r.
Qed.

Lemma settledUnit_above c : (1024 <= c)%N -> settledUnit c = true.
Proof.
  intros H. unfold settledUnit. rewrite (lowerUnit_above c H), N.eqb_refl.
  replace (c =? capitalSigma)%N with false; [reflexivity|].
  symmetry. apply N.eqb_neq. unfold capitalSigma. lia.
Qed.

(** The units that a unit becomes are left as they are afterwards. *)
Lemma lowerUnit_settled c : settled (ofUnits (lowerUnit c)) = true.
Proof.
  destruct (N.lt_ge_cases c 1024) as [H|H].
  - revert c H. apply below_1024. vm_compute. reflexivity.
  - rewrite (lowerUnit_above c H). simpl. now rewrite (settledUnit_above c H).
Qed.

Lemma settled_app a b : settled (a +:+ b) = settled a && settled b.
Proof.
  induction a as [|c a IH]; simpl; [reflexivity|]. now rewrite IH, andb_assoc.
Qed.

Lemma lowerFrom_settled prev s : settled (lowerFrom prev s) = true.
Proof.
  revert prev; induction s as [|c s IH]; intros prev; simpl; [reflexivity|].
  rewrite settled_app, IH, andb_true_r.
  destruct (c =? capitalSigma)%N; [|apply lowerUnit_settled].
  now destruct (prev && negb (followedByCased s)).
Qed.

Lemma lowerFrom_fixed prev s : settled s = true -> lowerFrom prev s = s.
Proof.
  revert prev; induction s as [|c s IH]; intros prev; simpl; [reflexivity|].
  intros [Hc Hs]%andb_true_iff. rewrite (IH _ Hs).
  unfold settledUnit in Hc. apply andb_true_iff in Hc as [Hn Hl].
  apply negb_true_iff in Hn. rewrite Hn.
  destruct (lowerUnit c) as [|d [|e l]]; try discriminate.
  apply N.eqb_eq in Hl. now subst d.
Qed.

Lemma toLowerCase_idempotent x : toLowerCase (toLowerCase x) = toLowerCase x.
Proof. unfold toLowerCase. apply lowerFrom_fixed, lowerFrom_settled. Qed.

Lemma lowerUnit_ascii c :
  (c <? 128)%N = true ->
  (c =? capitalSigma)%N = false /\ lowerUnit c = [asciiLowerUnit c].
Proof.
  intros H. apply N.ltb_lt in H.
  assert (B : (c < 1024)%N) by lia.
  assert (K : implb (c <? 128)%N
                (negb (c =? capitalSigma)%N
                 && match lowerUnit c with
                    | [d] => (d =? asciiLowerUnit c)%N
                    | _ => false
                    end) = true).
  { clear H. revert c B. apply below_1024. vm_compute. reflexivity. }
  apply N.ltb_lt in H. rewrite H in K. simpl in K.
  apply andb_true_iff in K as [K1 K2]. apply negb_true_iff in K1.
  split; [assumption|].
  destruct (lowerUnit c) as [|d [|e l]]; try discriminate.
  apply N.eqb_eq in K2. now subst d.
Qed.

Lemma lowerFrom_ascii prev x : isAscii x = true -> lowerFrom prev x = asciiLower x.
Proof.
  revert prev; induction x as [|c x IH]; intros prev; simpl; [reflexivity|].
  intros [Hc Hx]%andb_true_iff.
  destruct (lowerUnit_ascii c Hc) as [-> ->]. simpl. now rewrite IH.
Qed.

Lemma toLowerCase_ascii x : isAscii x = true -> toLowerCase x = asciiLower x.
Proof. apply lowerFrom_ascii. Qed.

(** The engine whose case tables are the excerpt. *)
Definition excerpt : Runtime.t :=
  Runtime.mk toLowerCase toLowerCase_ascii toLowerCase_idempotent.

Lemma empty_lowered (rt : Runtime.t) : Runtime.toLowerCase rt "" = "".
Proof. now rewrite Runtime.toLowerCase_ascii. Qed.

End Engine.
(** ** The mutation handlers *)

Module Handlers.
Import JsString JsStringFacts Engine TodoApp.

Lemma setTodos_same s : setTodos (todos s) s = s.
Proof. now destruct s. Qed.

Lemma map_id_on {A} (f : A -> A) (l : list A) :
  (forall x, In x l -> f x = x) -> map f l = l.
Proof.
  induction l as [|a l IH]; simpl; intros H; [reflexivity|].
  rewrite H by now left. f_equal. apply IH. intros x Hx. apply H. now right.
Qed.

Lemma in_ids i s : In i (ids s) <-> exists t, In t (todos s) /\ id t = i.
Proof.
  unfold ids. rewrite in_map_iff. split; intros (t & H1 & H2); eauto.
Qed.

Lemma unused_spec i s : unused i s = true <-> ~ In i (ids s).
Proof.
  unfold unused. rewrite forallb_forall, in_ids. split.
  - intros H (t & Ht & E). specialize (H t Ht).
    rewrite negb_true_iff, str_eqb_neq in H. contradiction.
  - intros H t Ht. rewrite negb_true_iff, str_eqb_neq. intros E. apply H; eauto.
Qed.

(** *** addTodo *)

(** C2.  When the draft text trims to the empty string, that is (by
    [trim_empty]) when it is empty or consists of white space only,
    [addTodo] returns the state it was given: the task list, the draft
    text and the add-panel flag are unchanged, and so is the number of
    tasks. *)
Theorem addTodo_blank_noop (now : Z) (created : Date) (s : State) :
  trim (inputText s) = "" \/ blank (inputText s) = true ->
  addTodo now created s = s
  /\ todos (addTodo now created s) = todos s
  /\ inputText (addTodo now created s) = inputText s
  /\ showAddForm (addTodo now created s) = showAddForm s
  /\ totalCount (addTodo now created s) = totalCount s.
Proof.
  intros H.
  assert (E : trim (inputText s) = "") by (destruct H; [assumption | now apply trim_empty]).
  assert (R : addTodo now created s = s) by (unfold addTodo; now rewrite E).
  rewrite R. tauto.
Qed.

Lemma addTodo_blank_noop_witness :
  let s := setInputText "   " (startup 0 0 0) in
  trim (inputText s) = ""
  /\ addTodo 1762021860000 1762021860000 s = s
  /\ todos (addTodo 1762021860000 1762021860000 s) = todos s
  /\ inputText (addTodo 1762021860000 1762021860000 s) = inputText s
  /\ showAddForm (addTodo 1762021860000 1762021860000 s) = showAddForm s
  /\ totalCount (addTodo 1762021860000 1762021860000 s) = totalCount s.
Proof.
  intros s.
  assert (H : trim (inputText s) = "") by reflexivity.
  split; [exact H|].
  apply (addTodo_blank_noop 1762021860000 1762021860000 s).
  left. exact H.
Defined.

Lemma addTodo_stores now created s :
  trim (inputText s) <> "" ->
  addTodo now created s =
  setShowAddForm false
    (setInputText "" (setTodos (newTodo now created s :: todos s) s)).
Proof.
  intros H. unfold addTodo. apply truthy_true in H. now rewrite H.
Qed.

Lemma filteredTodos_cons (rt : Runtime.t) t l s :
  filteredTodos rt (setTodos (t :: l) s) =
  if matchesFilter (filter s) t && matchesSearch rt (searchQuery s) t
  then t :: filteredTodos rt (setTodos l s)
  else filteredTodos rt (setTodos l s).
Proof. reflexivity. Qed.

Lemma matchesSearch_empty (rt : Runtime.t) t : matchesSearch rt "" t = true.
Proof. unfold matchesSearch. rewrite empty_lowered. apply includes_empty. Qed.

Lemma filteredTodos_all_empty_query (rt : Runtime.t) s :
  filter s = Filter.all -> searchQuery s = "" -> filteredTodos rt s = todos s.
Proof.
  unfold filteredTodos. intros -> ->.
  induction (todos s) as [|t l IH]; simpl; [reflexivity|].
  rewrite matchesSearch_empty. now f_equal.
Qed.

(** C3, as amended.  When the draft text does not trim to the empty string,
    [addTodo] puts in front of the task list a task with the trimmed text,
    the selected category and priority and [completed = false], keeps the
    stored tasks as they were and in their order, empties the draft text
    and closes the add panel.  Under the filter [all] the new task is the
    first visible one when the search query in force matches its text
    (the test [matchesSearch] of [filteredTodos]), in particular when the
    query is empty; when the query does not match its text, the visible
    sequence is the one before the call. *)
Theorem addTodo_prepends (rt : Runtime.t) (now : Z) (created : Date) (s : State) :
  trim (inputText s) <> "" ->
  todos (addTodo now created s) = newTodo now created s :: todos s
  /\ text (newTodo now created s) = trim (inputText s)
  /\ category (newTodo now created s) = selectedCategory s
  /\ priority (newTodo now created s) = selectedPriority s
  /\ completed (newTodo now created s) = false
  /\ inputText (addTodo now created s) = ""
  /\ showAddForm (addTodo now created s) = false
  /\ (matchesSearch rt (searchQuery s) (newTodo now created s) = true ->
      filteredTodos rt (setFilter Filter.all (addTodo now created s))
      = newTodo now created s :: filteredTodos rt (setFilter Filter.all s))
  /\ (searchQuery s = "" ->
      filteredTodos rt (setFilter Filter.all (addTodo now created s))
      = newTodo now created s :: todos s)
  /\ (matchesSearch rt (searchQuery s) (newTodo now created s) = false ->
      filteredTodos rt (setFilter Filter.all (addTodo now created s))
      = filteredTodos rt (setFilter Filter.all s)).
Proof.
  intros H. rewrite (addTodo_stores now created s H).
  repeat (split; [reflexivity|]).
  assert (V : forall b, matchesSearch rt (searchQuery s) (newTodo now created s) = b ->
            filteredTodos rt (setFilter Filter.all
              (setShowAddForm false (setInputText ""
                 (setTodos (newTodo now created s :: todos s) s))))
            = if b then newTodo now created s :: filteredTodos rt (setFilter Filter.all s)
              else filteredTodos rt (setFilter Filter.all s)).
  { intros b Hb. unfold filteredTodos at 1. simpl. now rewrite Hb. }
  split; [|split].
  - intros Hm. apply (V true Hm).
  - intros Hq. rewrite (V true).
    + f_equal. now apply (filteredTodos_all_empty_query rt (setFilter Filter.all s)).
    + rewrite Hq. apply matchesSearch_empty.
  - intros Hm. apply (V false Hm).
Qed.

Lemma addTodo_prepends_witness :
  let s := setSelectedPriority high (setSelectedCategory work
             (setInputText "Complete project presentation" initialState)) in
  trim (inputText s) <> ""
  /\ searchQuery s = ""
  /\ todos (addTodo 1762021860000 1762021860003 s)
     = [ mkTodo "1762021860000" "Complete project presentation" false work high
                1762021860003 ]
  /\ filteredTodos Engine.excerpt (setFilter Filter.all (addTodo 1762021860000 1762021860003 s))
     = [ mkTodo "1762021860000" "Complete project presentation" false work high
                1762021860003 ].
Proof.
  intros s.
  assert (H : trim (inputText s) <> "") by (vm_compute; discriminate).
  destruct (addTodo_prepends Engine.excerpt 1762021860000 1762021860003 s H)
    as (Ht & _ & _ & _ & _ & _ & _ & _ & Hq & _).
  split; [exact H|]. split; [reflexivity|].
  rewrite Ht, (Hq eq_refl). vm_compute. split; reflexivity.
Defined.

(** The sentence of C3 on the visible sequence fails when a search query
    is in force that the new text does not contain: the task is stored but
    is not visible, under the filter [all] either. *)
Lemma addTodo_first_visible_counterexample :
  let s := setSearchQuery "milk" (setInputText "Pay rent" (startup 0 0 0)) in
  trim (inputText s) <> ""
  /\ filter (addTodo 1762021860000 1762021860000 s) = Filter.all
  /\ ~ In (newTodo 1762021860000 1762021860000 s)
         (filteredTodos Engine.excerpt (addTodo 1762021860000 1762021860000 s))
  /\ hd_error (filteredTodos Engine.excerpt (addTodo 1762021860000 1762021860000 s))
     <> Some (newTodo 1762021860000 1762021860000 s).
Proof.
  vm_compute. repeat split; try discriminate. intros [].
Qed.

(** *** toggleTodo *)

Lemma toggled_twice i t : toggled i (toggled i t) = t.
Proof.
  unfold toggled. destruct (JsString.eqb (id t) i) eqn:E; simpl; rewrite ?E; simpl.
  - destruct t as [a b c d e f]; simpl. now rewrite negb_involutive.
  - reflexivity.
Qed.

Lemma toggled_other i t : id t <> i -> toggled i t = t.
Proof. intros H. unfold toggled. apply str_eqb_neq in H. now rewrite H. Qed.

Lemma todos_toggleTodo i s : todos (toggleTodo i s) = map (toggled i) (todos s).
Proof. reflexivity. Qed.

(** C8.  [toggleTodo i] changes nothing but [completed] fields: at every
    position of the list the task keeps its other fields, and its
    [completed] flag is negated exactly when its identifier is [i].
    Toggling twice gives back the state, and toggling an identifier that
    no task has gives back the state. *)
Theorem toggleTodo_spec (i : string) (s : State) :
  (forall (k : nat) (t : Todo), nth_error (todos s) k = Some t ->
     exists t', nth_error (todos (toggleTodo i s)) k = Some t'
       /\ id t' = id t /\ text t' = text t /\ category t' = category t
       /\ priority t' = priority t /\ createdAt t' = createdAt t
       /\ completed t' = if JsString.eqb (id t) i then negb (completed t) else completed t)
  /\ length (todos (toggleTodo i s)) = length (todos s)
  /\ toggleTodo i (toggleTodo i s) = s
  /\ (~ In i (ids s) -> toggleTodo i s = s).
Proof.
  split; [|split; [|split]].
  - intros k t Hk. exists (toggled i t). split.
    + rewrite todos_toggleTodo. now apply map_nth_error.
    + unfold toggled. destruct (JsString.eqb (id t) i); simpl; tauto.
  - rewrite todos_toggleTodo. apply length_map.
  - unfold toggleTodo at 1. rewrite todos_toggleTodo, map_map.
    rewrite (map_id_on (fun x => toggled i (toggled i x)))
      by (intros; apply toggled_twice).
    now destruct s.
  - intros H. unfold toggleTodo.
    rewrite (map_id_on (toggled i)); [apply setTodos_same|].
    intros t Ht. apply toggled_other. intros E. apply H, in_ids. eauto.
Qed.

Lemma toggleTodo_spec_witness :
  ~ In "42" (ids (startup 0 0 0))
  /\ toggleTodo "42" (startup 0 0 0) = startup 0 0 0
  /\ toggleTodo "2" (toggleTodo "2" (startup 0 0 0)) = startup 0 0 0.
Proof.
  assert (H : ~ In "42" (ids (startup 0 0 0))).
  { apply unused_spec. reflexivity. }
  split; [exact H|]. split.
  - destruct (toggleTodo_spec "42" (startup 0 0 0)) as (_ & _ & _ & Hn).
    exact (Hn H).
  - destruct (toggleTodo_spec "2" (startup 0 0 0)) as (_ & _ & Ht & _).
    exact Ht.
Defined.

(** *** saveEdit *)

Lemma isEditing_spec e t : isEditing e t = true <-> e = Some (id t).
Proof.
  destruct e as [i|]; simpl; [|split; discriminate].
  rewrite str_eqb_eq. split; [now intros -> | now intros [= ->]].
Qed.

(** C4.  [saveEdit] always clears the editing identifier and the edit
    buffer and touches no other cell but the task list.  In the list, at
    every position the task keeps all fields but [text]; its text becomes
    the trimmed edit buffer exactly when the trimmed buffer is not empty
    and the task has the stored editing identifier, and is kept otherwise.
    With an edit buffer of white space only the list is unchanged. *)
Theorem saveEdit_spec (s : State) :
  editingId (saveEdit s) = None
  /\ editingText (saveEdit s) = ""
  /\ (forall (k : nat) (t : Todo), nth_error (todos s) k = Some t ->
       exists t', nth_error (todos (saveEdit s)) k = Some t'
         /\ id t' = id t /\ completed t' = completed t /\ category t' = category t
         /\ priority t' = priority t /\ createdAt t' = createdAt t
         /\ text t' = if overwritten s t then trim (editingText s) else text t)
  /\ (forall t, overwritten s t = true <->
                trim (editingText s) <> "" /\ editingId s = Some (id t))
  /\ (blank (editingText s) = true -> todos (saveEdit s) = todos s)
  /\ saveEdit s = setEditingText "" (setEditingId None (setTodos (todos (saveEdit s)) s)).
Proof.
  split; [|split; [|split; [|split; [|split]]]].
  - reflexivity.
  - reflexivity.
  - intros k t Hk. unfold saveEdit, overwritten.
    destruct (truthy (trim (editingText s))); simpl.
    + exists (if isEditing (editingId s) t then withText (trim (editingText s)) t else t).
      split.
      * now apply (map_nth_error
          (fun todo => if isEditing (editingId s) todo
                       then withText (trim (editingText s)) todo else todo)).
      * destruct (isEditing (editingId s) t); simpl; tauto.
    + exists t. tauto.
  - intros t. unfold overwritten.
    now rewrite andb_true_iff, truthy_true, isEditing_spec.
  - intros Hb. apply trim_empty in Hb. unfold saveEdit. now rewrite Hb.
  - unfold saveEdit. destruct (truthy (trim (editingText s))); reflexivity.
Qed.

Lemma saveEdit_spec_witness :
  let s := setEditingText "  " (startEdit (mkTodo "2" "Buy groceries for the week"
                                             false shopping medium 0)
                                         (startup 0 0 0)) in
  blank (editingText s) = true
  /\ todos (saveEdit s) = todos s
  /\ editingId s = Some "2"
  /\ editingId (saveEdit s) = None.
Proof.
  intros s.
  destruct (saveEdit_spec s) as (Hid & _ & _ & _ & Hb & _).
  split; [reflexivity|]. split; [exact (Hb eq_refl)|]. split; [reflexivity | exact Hid].
Defined.

(** *** Identifiers along a run *)

Lemma ids_toggleTodo i s : ids (toggleTodo i s) = ids s.
Proof.
  unfold ids. rewrite todos_toggleTodo, map_map. apply map_ext.
  intros t. unfold toggled. now destruct (JsString.eqb (id t) i).
Qed.

Lemma ids_saveEdit s : ids (saveEdit s) = ids s.
Proof.
  unfold ids, saveEdit. destruct (truthy (trim (editingText s))); simpl; [|reflexivity].
  rewrite map_map. apply map_ext.
  intros t. now destruct (isEditing (editingId s) t).
Qed.

Lemma deleteTodo_cases i o s :
  deleteTodo i o s =
  match o with
  | Pressed 1 =>
      setTodos (List.filter (fun todo => negb (JsString.eqb (id todo) i)) (todos s)) s
  | _ => s
  end.
Proof.
  destruct o as [k|]; [|reflexivity].
  destruct k as [|[|[|k]]]; reflexivity.
Qed.

Lemma filter_other_ids i (l : list Todo) :
  ~ In i (map id l) ->
  List.filter (fun todo => negb (JsString.eqb (id todo) i)) l = l.
Proof.
  induction l as [|t l IH]; simpl; intros H; [reflexivity|].
  destruct (JsString.eqb (id t) i) eqn:E; simpl.
  - apply str_eqb_eq in E. tauto.
  - f_equal. tauto.
Qed.

Lemma in_ids_filter (p : Todo -> bool) (l : list Todo) j :
  In j (map id (List.filter p l)) -> In j (map id l).
Proof.
  rewrite !in_map_iff. intros (t & E & Ht). apply filter_In in Ht. exists t. tauto.
Qed.

Lemma NoDup_ids_filter (p : Todo -> bool) (l : list Todo) :
  List.NoDup (map id l) -> List.NoDup (map id (List.filter p l)).
Proof.
  induction l as [|t l IH]; simpl; intros H; [constructor|].
  apply List.NoDup_cons_iff in H as [Hn Hl].
  destruct (p t); simpl; [|auto].
  apply List.NoDup_cons_iff. split; [|auto].
  intros Hin. apply Hn. eapply in_ids_filter, Hin.
Qed.

(** What one event may do to the identifiers. *)
Lemma ids_step e s :
  ids (step e s) = ids s
  \/ (exists i, e = DeleteTodo i pressDelete /\
        ids (step e s)
        = map id (List.filter (fun todo => negb (JsString.eqb (id todo) i)) (todos s)))
  \/ (exists now created, e = AddTodo now created /\
        truthy (trim (inputText s)) = true /\
        ids (step e s) = newId now :: ids s).
Proof.
  destruct e as [now created|i|i o| | | | | | | | | | | ]; simpl;
    try (left; reflexivity).
  - unfold addTodo. destruct (truthy (trim (inputText s))) eqn:E.
    + right; right. now exists now, created.
    + now left.
  - left. apply ids_toggleTodo.
  - rewrite deleteTodo_cases. destruct o as [[|[|k]]|]; try (left; reflexivity).
    right; left. now exists i.
  - left. apply ids_saveEdit.
Qed.

Lemma unused_step i e s :
  createsNo i [e] = true -> unused i s = true -> unused i (step e s) = true.
Proof.
  rewrite !unused_spec. intros Hc Hs Hin.
  destruct (ids_step e s) as [E | [(j & _ & E) | (now & created & -> & _ & E)]];
    rewrite E in Hin.
  - contradiction.
  - apply in_ids_filter in Hin. contradiction.
  - simpl in Hc. rewrite andb_true_r, negb_true_iff, str_eqb_neq in Hc.
    destruct Hin as [Hin | Hin]; [congruence | contradiction].
Qed.

Lemma unused_run i tr s :
  createsNo i tr = true -> unused i s = true -> unused i (run tr s) = true.
Proof.
  revert s; induction tr as [|e tr IH]; intros s Hc Hs; simpl; [assumption|].
  simpl in Hc. apply andb_true_iff in Hc as [He Htr].
  apply IH; [assumption|]. apply unused_step; [|assumption].
  simpl. now rewrite He.
Qed.

Lemma filteredTodos_incl (rt : Runtime.t) s t : In t (filteredTodos rt s) -> In t (todos s).
Proof. unfold filteredTodos. rewrite filter_In. tauto. Qed.

Lemma unused_filteredTodos (rt : Runtime.t) i s t :
  unused i s = true -> In t (filteredTodos rt s) -> id t <> i.
Proof.
  rewrite unused_spec. intros Hu Ht E. apply Hu, in_ids.
  exists t. split; [now apply (filteredTodos_incl rt) | assumption].
Qed.

Lemma unused_after_delete i s :
  unused i (deleteTodo i pressDelete s) = true.
Proof.
  apply unused_spec. rewrite in_ids. intros (t & Ht & E).
  rewrite deleteTodo_cases in Ht. simpl in Ht.
  apply filter_In in Ht as [_ Ht].
  rewrite negb_true_iff, str_eqb_neq in Ht. contradiction.
Qed.

(** *** deleteTodo *)

(** C5.  [deleteTodo i] shows a confirmation dialog.  When the user
    presses [Delete], the list becomes the list without the tasks of
    identifier [i], the other tasks staying; from then on no filtered view
    shows a task of identifier [i], whatever the filter and the query, and
    whatever events follow, as long as no later [addTodo] reads a clock
    whose numeral is [i].  With any other outcome of the dialog the state
    is unchanged, and so it is, whatever the outcome, when no task has
    the identifier [i].  No cell but the task list ever changes. *)
Theorem deleteTodo_spec (rt : Runtime.t) (i : string) (o : Outcome) (s : State) :
  (o = pressDelete ->
     todos (deleteTodo i o s)
     = List.filter (fun todo => negb (JsString.eqb (id todo) i)) (todos s)
     /\ (forall t, In t (todos (deleteTodo i o s)) <-> In t (todos s) /\ id t <> i)
     /\ (forall f q t,
           In t (filteredTodos rt (setSearchQuery q (setFilter f (deleteTodo i o s)))) ->
           id t <> i)
     /\ (forall tr t, createsNo i tr = true ->
           In t (filteredTodos rt (run tr (deleteTodo i o s))) -> id t <> i))
  /\ (o <> pressDelete ->
        deleteTodo i o s = s /\ totalCount (deleteTodo i o s) = totalCount s)
  /\ (~ In i (ids s) -> deleteTodo i o s = s)
  /\ deleteTodo i o s = setTodos (todos (deleteTodo i o s)) s.
Proof.
  split; [|split; [|split]].
  - intros ->. split; [now rewrite deleteTodo_cases|]. split; [|split].
    + intros t. rewrite deleteTodo_cases. simpl. rewrite filter_In.
      now rewrite negb_true_iff, str_eqb_neq.
    + intros f q t. apply (unused_filteredTodos rt).
      change (unused i (deleteTodo i pressDelete s) = true).
      apply unused_after_delete.
    + intros tr t Hc. apply (unused_filteredTodos rt).
      apply unused_run; [assumption | apply unused_after_delete].
  - intros Ho.
    assert (E : deleteTodo i o s = s).
    { rewrite deleteTodo_cases. destruct o as [[|[|k]]|]; try reflexivity.
      now contradiction Ho. }
    now rewrite E.
  - intros Hn. rewrite deleteTodo_cases.
    destruct o as [[|[|k]]|]; try reflexivity.
    rewrite filter_other_ids by exact Hn. apply setTodos_same.
  - rewrite deleteTodo_cases. destruct o as [[|[|k]]|]; simpl;
      try (symmetry; apply setTodos_same). reflexivity.
Qed.

Lemma deleteTodo_spec_witness :
  let tr := [ SetInputText "Buy stamps"; AddTodo 1762021860000 1762021860000;
              ToggleTodo "3"; SetFilter Filter.active; SetSearchQuery "o" ] in
  (pressCancel <> pressDelete
   /\ deleteTodo "2" pressCancel (startup 0 0 0) = startup 0 0 0)
  /\ (createsNo "2" tr = true
      /\ forall t,
           In t (filteredTodos Engine.excerpt
                   (run tr (deleteTodo "2" pressDelete (startup 0 0 0)))) ->
           id t <> "2")
  /\ (~ In "42" (ids (startup 0 0 0))
      /\ deleteTodo "42" pressDelete (startup 0 0 0) = startup 0 0 0).
Proof.
  intros tr. split; [|split].
  - assert (H : pressCancel <> pressDelete) by discriminate.
    split; [exact H|].
    destruct (deleteTodo_spec Engine.excerpt "2" pressCancel (startup 0 0 0))
      as (_ & Hd & _).
    exact (proj1 (Hd H)).
  - assert (Hc : createsNo "2" tr = true) by (vm_compute; reflexivity).
    split; [exact Hc|]. intros t.
    destruct (deleteTodo_spec Engine.excerpt "2" pressDelete (startup 0 0 0))
      as (Ha & _).
    destruct (Ha eq_refl) as (_ & _ & _ & Hr).
    exact (Hr tr t Hc).
  - assert (H : ~ In "42" (ids (startup 0 0 0))) by (apply unused_spec; reflexivity).
    split; [exact H|].
    destruct (deleteTodo_spec Engine.excerpt "42" pressDelete (startup 0 0 0))
      as (_ & _ & Hn & _).
    exact (Hn H).
Defined.

(** *** Uniqueness of identifiers *)

(** Different clock readings give different identifiers. *)
Lemma newId_inj a b : newId a = newId b -> a = b.
Proof. intros E. apply pretty_Z_inj. now apply ofAscii_inj. Qed.

Lemma NoDup_ids_step e s :
  List.NoDup (ids s) -> freshClock [e] s = true -> List.NoDup (ids (step e s)).
Proof.
  intros Hs Hf.
  destruct (ids_step e s) as [E | [(j & _ & E) | (now & created & -> & Ht & E)]];
    rewrite E.
  - assumption.
  - now apply NoDup_ids_filter.
  - simpl in Hf. rewrite Ht, andb_true_r in Hf. simpl in Hf.
    apply List.NoDup_cons_iff. split; [now apply unused_spec | assumption].
Qed.

(** C1, as amended.  From a state whose identifiers are pairwise
    distinct, after every prefix of a sequence of events (among them
    [addTodo], [toggleTodo] and [deleteTodo]) the identifiers are pairwise
    distinct, provided every [addTodo] that stores a task reads a clock
    whose decimal numeral is, at that moment, the identifier of no stored
    task. *)
Theorem ids_unique_along_run (tr : list Event) (s : State) :
  List.NoDup (ids s) -> freshClock tr s = true ->
  forall pre post, tr = pre ++ post -> List.NoDup (ids (run pre s)).
Proof.
  intros Hs Hf pre. revert tr s Hs Hf.
  induction pre as [|e pre IH]; intros tr s Hs Hf post ->; simpl; [assumption|].
  simpl in Hf. apply andb_true_iff in Hf as [He Hf].
  apply (IH (pre ++ post) (step e s)) with (post := post);
    [|assumption|reflexivity].
  apply NoDup_ids_step; [assumption|]. simpl. now rewrite He.
Qed.

Lemma ids_unique_along_run_witness :
  let tr := [ SetInputText "Pay rent"; AddTodo 1762021860000 1762021860000;
              ToggleTodo "2"; DeleteTodo "1" pressDelete;
              SetInputText "Call the bank"; AddTodo 1762021861000 1762021861000 ] in
  List.NoDup (ids (startup 0 0 0))
  /\ freshClock tr (startup 0 0 0) = true
  /\ List.NoDup (ids (run tr (startup 0 0 0))).
Proof.
  intros tr.
  assert (H0 : List.NoDup (ids (startup 0 0 0))).
  { vm_compute. repeat constructor; simpl; intuition discriminate. }
  assert (Hf : freshClock tr (startup 0 0 0) = true) by (vm_compute; reflexivity).
  split; [exact H0|]. split; [exact Hf|].
  apply (ids_unique_along_run tr (startup 0 0 0) H0 Hf tr []).
  now rewrite app_nil_r.
Defined.

(** The sentence of C1 without the proviso fails: two tasks created at
    the same clock reading get the same identifier. *)
Lemma ids_unique_counterexample :
  let s1 := create "Pay rent" personal medium 1762021860000 1762021860000
                   (startup 0 0 0) in
  let s2 := create "Call the bank" work high 1762021860000 1762021860000 s1 in
  List.NoDup (ids (startup 0 0 0))
  /\ List.NoDup (ids s1)
  /\ ids s2 = ["1762021860000"; "1762021860000"; "1"; "2"; "3"]
  /\ ~ List.NoDup (ids s2).
Proof.
  vm_compute. split; [|split; [|split]].
  - repeat constructor; simpl; intuition discriminate.
  - repeat constructor; simpl; intuition discriminate.
  - reflexivity.
  - intros H. apply List.NoDup_cons_iff in H as [H _]. apply H. now left.
Qed.

End Handlers.

(** ** The derived values *)

Module Views.
Import JsString JsStringFacts Engine TodoApp Handlers.

Lemma matchesFilter_spec f t : matchesFilter f t = true <-> passesStatus f t.
Proof.
  unfold matchesFilter. destruct f, (completed t) eqn:E; simpl; rewrite ?E;
    split; intros; trivial; discriminate.
Qed.

Lemma matchesSearch_spec (rt : Runtime.t) q t :
  matchesSearch rt q t = true <-> occursLowered rt q (text t).
Proof. unfold matchesSearch, occursLowered. apply includes_spec. Qed.

Lemma occursLowered_empty (rt : Runtime.t) x : occursLowered rt "" x.
Proof.
  unfold occursLowered. rewrite empty_lowered.
  now exists "", (Runtime.toLowerCase rt x).
Qed.

Lemma occursLowered_ascii (rt : Runtime.t) q x :
  isAscii q = true -> isAscii x = true ->
  (occursLowered rt q x <-> ciSubstring q x).
Proof.
  intros Hq Hx. unfold occursLowered, ciSubstring.
  rewrite (Runtime.toLowerCase_ascii rt q Hq), (Runtime.toLowerCase_ascii rt x Hx).
  split.
  - intros (pre' & post' & H).
    apply asciiLower_split in H as (pre & r & Ht & Hpre & Hr).
    apply asciiLower_split in Hr as (u & post & -> & Hu & Hpost).
    now exists pre, u, post.
  - intros (pre & u & post & -> & Hu).
    exists (asciiLower pre), (asciiLower post).
    now rewrite !asciiLower_app, Hu.
Qed.

Lemma filter_sublist {A} (p : A -> bool) (l : list A) :
  sublist (List.filter p l) l.
Proof.
  induction l as [|a l IH]; simpl; [constructor|].
  destruct (p a); now constructor.
Qed.

(** C6, as amended.  Whatever the case tables of the engine,
    [filteredTodos] is the task list filtered by a test that holds of a
    task exactly when the task passes the status filter and the lower-case
    form of the search query occurs in the lower-case form of its text.  So
    a task is visible exactly when it is stored and passes both; the
    visible tasks come in the order of the store; the empty query occurs
    in every text; for a query and a text of Basic Latin the test on the
    text is that some substring of the text is the query but for the case
    of the letters A-Z; and the query GROCERIES finds the text
    "Buy groceries for the week". *)
Theorem filteredTodos_spec (rt : Runtime.t) (s : State) :
  (exists keep : Todo -> bool,
      filteredTodos rt s = List.filter keep (todos s)
      /\ forall t, keep t = true <->
                   passesStatus (filter s) t
                   /\ occursLowered rt (searchQuery s) (text t))
  /\ (forall t, In t (filteredTodos rt s) <->
                In t (todos s) /\ passesStatus (filter s) t
                /\ occursLowered rt (searchQuery s) (text t))
  /\ sublist (filteredTodos rt s) (todos s)
  /\ (forall x, occursLowered rt "" x)
  /\ (forall t, isAscii (searchQuery s) = true -> isAscii (text t) = true ->
        (occursLowered rt (searchQuery s) (text t)
         <-> ciSubstring (searchQuery s) (text t)))
  /\ (forall i c k p d,
        matchesSearch rt "GROCERIES"
          (mkTodo i "Buy groceries for the week" c k p d) = true).
Proof.
  split; [|split; [|split; [|split; [|split]]]].
  - exists (fun todo =>
              matchesFilter (filter s) todo && matchesSearch rt (searchQuery s) todo).
    split; [reflexivity|]. intros t.
    now rewrite andb_true_iff, matchesFilter_spec, matchesSearch_spec.
  - intros t. unfold filteredTodos.
    now rewrite filter_In, andb_true_iff, matchesFilter_spec, matchesSearch_spec.
  - apply filter_sublist.
  - apply occursLowered_empty.
  - intros t. apply occursLowered_ascii.
  - intros i c k p d. unfold matchesSearch. simpl.
    rewrite !Runtime.toLowerCase_ascii by reflexivity. reflexivity.
Qed.

Lemma filteredTodos_spec_witness :
  let s := setSearchQuery "GROCERIES" (startup 0 0 0) in
  let t := mkTodo "2" "Buy groceries for the week" false shopping medium 0 in
  isAscii (searchQuery s) = true
  /\ isAscii (text t) = true
  /\ filteredTodos Engine.excerpt s = [t]
  /\ ciSubstring (searchQuery s) (text t).
Proof.
  intros s t.
  destruct (filteredTodos_spec Engine.excerpt s) as (_ & Hin & _ & _ & Hascii & _).
  assert (Hv : filteredTodos Engine.excerpt s = [t]) by reflexivity.
  assert (Ht : In t (filteredTodos Engine.excerpt s)) by (rewrite Hv; now left).
  split; [reflexivity|]. split; [reflexivity|]. split; [exact Hv|].
  apply (Hascii t eq_refl eq_refl). apply Hin. exact Ht.
Defined.

(** The sentence of C6 on the text fails beyond Basic Latin.  The text is
    U+039F U+0394 U+039F U+03A3 and the query is U+03A3, the last unit of
    the text.  The capital sigma of the text, at the end of a word, becomes
    the final sigma U+03C2, and that of the query the small sigma U+03C3:
    the task is not shown, though the query occurs in its text as it is. *)
Lemma filteredTodos_counterexample :
  let t := mkTodo "1" "ΟΔΟΣ" false personal medium 0 in
  let s := setSearchQuery "Σ" (setTodos [t] initialState) in
  units (text t) = [927%N; 916%N; 927%N; 931%N]
  /\ units (searchQuery s) = [931%N]
  /\ filter s = Filter.all
  /\ includes (text t) (searchQuery s) = true
  /\ text t = "ΟΔΟ" +:+ searchQuery s +:+ ""
  /\ units (Runtime.toLowerCase Engine.excerpt (text t)) = [959%N; 948%N; 959%N; 962%N]
  /\ units (Runtime.toLowerCase Engine.excerpt (searchQuery s)) = [963%N]
  /\ filteredTodos Engine.excerpt s = [].
Proof.
  repeat split.
Qed.

Lemma filteredTodos_set (rt : Runtime.t) f q s :
  filteredTodos rt (setSearchQuery q (setFilter f s))
  = List.filter (fun todo => matchesFilter f todo && matchesSearch rt q todo) (todos s).
Proof. reflexivity. Qed.

Lemma matchesFilter_all t : matchesFilter Filter.all t = true.
Proof. reflexivity. Qed.

Lemma matchesFilter_active t : matchesFilter Filter.active t = negb (completed t).
Proof. unfold matchesFilter. simpl. now destruct (completed t). Qed.

Lemma matchesFilter_completed t : matchesFilter Filter.completed t = completed t.
Proof. reflexivity. Qed.

(** C7.  For every state and every search query, no task is in both the
    view under [active] and the view under [completed], and a task is in
    the view under [all] exactly when it is in one of the two; the view
    under [all] is as long as the two together. *)
Theorem active_completed_partition (rt : Runtime.t) (s : State) (q : string) :
  (forall t, ~ (In t (filteredTodos rt (setSearchQuery q (setFilter Filter.active s)))
               /\ In t (filteredTodos rt (setSearchQuery q (setFilter Filter.completed s)))))
  /\ (forall t, In t (filteredTodos rt (setSearchQuery q (setFilter Filter.all s))) <->
                In t (filteredTodos rt (setSearchQuery q (setFilter Filter.active s)))
                \/ In t (filteredTodos rt (setSearchQuery q (setFilter Filter.completed s))))
  /\ length (filteredTodos rt (setSearchQuery q (setFilter Filter.all s)))
     = (length (filteredTodos rt (setSearchQuery q (setFilter Filter.active s)))
        + length (filteredTodos rt (setSearchQuery q (setFilter Filter.completed s))))%nat.
Proof.
  rewrite !filteredTodos_set. split; [|split].
  - intros t. rewrite !filter_In, !andb_true_iff, !matchesFilter_spec. simpl.
    intros [(_ & H1 & _) (_ & H2 & _)]. congruence.
  - intros t. rewrite !filter_In, !andb_true_iff, !matchesFilter_spec. simpl.
    destruct (completed t); intuition discriminate.
  - induction (todos s) as [|t l IH]; [reflexivity|].
    cbn [List.filter].
    rewrite (matchesFilter_all t), (matchesFilter_active t),
      (matchesFilter_completed t).
    destruct (completed t), (matchesSearch rt q t); cbn [negb andb length]; lia.
Qed.

(** *** Progress *)

Lemma completedCount_le s : (completedCount s <= totalCount s)%nat.
Proof. apply filter_length_le. Qed.

Lemma completedCount_count s :
  completedCount s = count_occ bool_dec (map completed (todos s)) true.
Proof.
  unfold completedCount. induction (todos s) as [|t l IH]; simpl; [reflexivity|].
  destruct (completed t); simpl; now rewrite IH.
Qed.

(** C9.  [completedCount] is the number of tasks whose [completed] flag is
    set and [totalCount] the number of tasks.  When there are tasks, the
    completion ratio is the first divided by the second, in the binary64
    arithmetic of the code, and the width of the bar is that ratio times
    100; when there are none, both are 0, where the division alone would
    give NaN.  With three tasks of which one is completed the ratio is the
    number that the code writes 1/3, which is (2^54 - 1) / (3 * 2^54), the
    binary64 number nearest to one third, and the width is that number
    times 100, which is 33.33333333333333. *)
Theorem completionRatio_spec (s : State) :
  completedCount s = count_occ bool_dec (map completed (todos s)) true
  /\ totalCount s = length (todos s)
  /\ (completedCount s <= totalCount s)%nat
  /\ (todos s <> [] ->
      completionRatio s = (num (completedCount s) / num (totalCount s))%float
      /\ progressWidth s = (completionRatio s * 100)%float)
  /\ (todos s = [] -> completionRatio s = 0%float /\ progressWidth s = 0%float)
  /\ PrimFloat.is_nan (num 0 / num 0) = true
  /\ (totalCount s = 3%nat -> completedCount s = 1%nat ->
      completionRatio s = (1 / 3)%float
      /\ Prim2SF (completionRatio s) = S754_finite false 6004799503160661 (-54)
      /\ (3 * 6004799503160661 = 2 ^ 54 - 1)%Z
      /\ progressWidth s = (1 / 3 * 100)%float
      /\ Prim2SF (progressWidth s) = S754_finite false 4691249611844266 (-47)).
Proof.
  split; [apply completedCount_count|]. split; [reflexivity|].
  split; [apply completedCount_le|]. split; [|split; [|split]].
  - intros H. unfold completionRatio, progressWidth, totalCount.
    destruct (todos s) as [|t l]; [congruence|]. now split.
  - intros H. unfold completionRatio, progressWidth, totalCount. rewrite H. now split.
  - reflexivity.
  - intros Ht Hc. unfold completionRatio, progressWidth. rewrite Ht, Hc.
    repeat split.
Qed.

Lemma completionRatio_spec_witness :
  totalCount (startup 0 0 0) = 3%nat
  /\ completedCount (startup 0 0 0) = 1%nat
  /\ completionRatio (startup 0 0 0) = (1 / 3)%float
  /\ progressWidth (startup 0 0 0) = (1 / 3 * 100)%float
  /\ todos initialState = []
  /\ progressWidth initialState = 0%float.
Proof.
  destruct (completionRatio_spec (startup 0 0 0)) as (_ & _ & _ & _ & _ & _ & H3).
  destruct (completionRatio_spec initialState) as (_ & _ & _ & _ & H0 & _).
  destruct (H3 eq_refl eq_refl) as (Hr & _ & _ & Hw & _).
  split; [reflexivity|]. split; [reflexivity|].
  split; [exact Hr|]. split; [exact Hw|].
  split; [reflexivity | exact (proj2 (H0 eq_refl))].
Defined.

(** *** The first state *)

(** C10.  The list given to [useState] is empty, and the effect run when
    the component is mounted stores three tasks, of identifiers 1, 2 and 3
    in this order; the only completed one is "Morning workout".  The
    filter is then [all] and the query empty, so that the three tasks are
    visible, whatever the case tables of the engine; the completion ratio
    is the number that the code writes 1/3, and the width of the bar is
    that number times 100. *)
Theorem startup_spec (rt : Runtime.t) (t1 t2 t3 : Date) :
  todos initialState = []
  /\ todos (startup t1 t2 t3)
     = [ mkTodo "1" "Complete project presentation" false work high t1;
         mkTodo "2" "Buy groceries for the week" false shopping medium t2;
         mkTodo "3" "Morning workout" true health low t3 ]
  /\ ids (startup t1 t2 t3) = ["1"; "2"; "3"]
  /\ totalCount (startup t1 t2 t3) = 3%nat
  /\ List.filter (fun todo => completed todo) (todos (startup t1 t2 t3))
     = [ mkTodo "3" "Morning workout" true health low t3 ]
  /\ filter (startup t1 t2 t3) = Filter.all
  /\ searchQuery (startup t1 t2 t3) = ""
  /\ filteredTodos rt (startup t1 t2 t3) = todos (startup t1 t2 t3)
  /\ length (filteredTodos rt (startup t1 t2 t3)) = 3%nat
  /\ completionRatio (startup t1 t2 t3) = (1 / 3)%float
  /\ progressWidth (startup t1 t2 t3) = (1 / 3 * 100)%float.
Proof.
  assert (V : filteredTodos rt (startup t1 t2 t3) = todos (startup t1 t2 t3))
    by (now apply filteredTodos_all_empty_query).
  repeat (split; [reflexivity|]).
  split; [exact V|]. split; [now rewrite V|]. split; reflexivity.
Qed.

End Views.

(** ** More on the string functions *)

Module TextFacts.
Import JsString JsStringFacts TodoApp Runs.

Lemma blank_app a b : blank (a +:+ b) = blank a && blank b.
Proof.
  induction a as [|c a IH]; simpl; [reflexivity|].
  now rewrite IH, andb_assoc.
Qed.

Lemma trimStart_decompose s :
  exists pre, s = pre +:+ trimStart s /\ blank pre = true.
Proof.
  induction s as [|c s (pre & E & B)]; simpl.
  - now exists "".
  - destruct (isWhiteSpace c) eqn:W.
    + exists (String c pre). simpl. rewrite W, B.
      split; [exact (f_equal (String c) E) | reflexivity].
    + now exists "".
Qed.

Lemma trimEnd_decompose s :
  exists post, s = trimEnd s +:+ post /\ blank post = true.
Proof.
  induction s as [|c s (post & E & B)]; simpl.
  - now exists "".
  - destruct (trimEnd s) as [|d r] eqn:T.
    + change (s = post) in E. subst post. destruct (isWhiteSpace c) eqn:W.
      * exists (String c s). simpl. rewrite W, B. now split.
      * exists s. now split.
    + exists post. split; [exact (f_equal (String c) E) | assumption].
Qed.

Lemma firstUnit_trimStart s c :
  firstUnit (trimStart s) = Some c -> isWhiteSpace c = false.
Proof.
  induction s as [|d s IH]; simpl; [discriminate|].
  destruct (isWhiteSpace d) eqn:W; [assumption|].
  simpl. intros [= <-]. assumption.
Qed.

Lemma firstUnit_trimEnd s c :
  firstUnit s = Some c -> isWhiteSpace c = false -> firstUnit (trimEnd s) = Some c.
Proof.
  destruct s as [|d s]; simpl; [discriminate|].
  intros [= ->] W. destruct (trimEnd s); [now rewrite W | reflexivity].
Qed.

Lemma lastUnit_trimEnd s c :
  lastUnit (trimEnd s) = Some c -> isWhiteSpace c = false.
Proof.
  revert c; induction s as [|d s IH]; intros c; simpl; [discriminate|].
  destruct (trimEnd s) as [|e r] eqn:T.
  - destruct (isWhiteSpace d) eqn:W; simpl; [discriminate|].
    intros [= <-]. assumption.
  - change (lastUnit (String d (String e r)))
      with (match lastUnit (String e r) with None => Some d | x => x end).
    destruct (lastUnit (String e r)) as [x|] eqn:L.
    + intros [= <-]. now apply IH.
    + simpl in L. destruct (lastUnit r); discriminate.
Qed.

Lemma trimEnd_fixed s :
  s <> "" -> (forall c, lastUnit s = Some c -> isWhiteSpace c = false) ->
  trimEnd s = s.
Proof.
  induction s as [|d s IH]; [congruence|]. intros _ H. simpl.
  destruct s as [|e r].
  - simpl. simpl in H. now rewrite (H d eq_refl).
  - rewrite IH; [reflexivity | discriminate |].
    intros c Hc. apply H.
    change (lastUnit (String d (String e r)))
      with (match lastUnit (String e r) with None => Some d | x => x end).
    now rewrite Hc.
Qed.

Lemma trimStart_fixed s :
  (forall c, firstUnit s = Some c -> isWhiteSpace c = false) -> trimStart s = s.
Proof.
  destruct s as [|d s]; simpl; [reflexivity|].
  intros H. now rewrite (H d eq_refl).
Qed.

Lemma firstUnit_trim s c : firstUnit (trim s) = Some c -> isWhiteSpace c = false.
Proof.
  unfold trim. destruct (trimStart s) as [|d r] eqn:T; [discriminate|].
  assert (W : isWhiteSpace d = false).
  { apply (firstUnit_trimStart s). now rewrite T. }
  rewrite (firstUnit_trimEnd (String d r) d eq_refl W). now intros [= <-].
Qed.

Lemma lastUnit_trim s c : lastUnit (trim s) = Some c -> isWhiteSpace c = false.
Proof. apply lastUnit_trimEnd. Qed.

Lemma trim_fixed s :
  (forall c, firstUnit s = Some c -> isWhiteSpace c = false) ->
  (forall c, lastUnit s = Some c -> isWhiteSpace c = false) ->
  trim s = s.
Proof.
  intros Hf Hl. unfold trim. rewrite (trimStart_fixed s Hf).
  destruct s as [|d r]; [reflexivity|]. apply trimEnd_fixed; [discriminate | assumption].
Qed.

Lemma trim_idempotent s : trim (trim s) = trim s.
Proof. apply trim_fixed; [apply firstUnit_trim | apply lastUnit_trim]. Qed.

Lemma tidyText_spec x : tidyText x = true <-> x <> "" /\ trim x = x.
Proof.
  unfold tidyText. now rewrite andb_true_iff, truthy_true, str_eqb_eq.
Qed.

Lemma tidyText_trim x : trim x <> "" -> tidyText (trim x) = true.
Proof. intros H. apply tidyText_spec. split; [assumption | apply trim_idempotent]. Qed.

End TextFacts.

(** ** How the handlers compose *)

Module RunFacts.
Import JsString JsStringFacts TodoApp Runs TextFacts Handlers.

Lemma same_id_same_task (l : list Todo) a b :
  List.NoDup (map id l) -> In a l -> In b l -> id a = id b -> a = b.
Proof.
  induction l as [|t l IH]; simpl; [tauto|].
  intros H Ha Hb E. apply List.NoDup_cons_iff in H as [Hn Hl].
  destruct Ha as [<-|Ha], Hb as [<-|Hb]; auto.
  - exfalso. apply Hn. rewrite E. now apply in_map.
  - exfalso. apply Hn. rewrite <- E. now apply in_map.
Qed.

(** *** What [addTodo] stores *)

(** The text that [addTodo] stores is the draft without the white space
    around it: the draft is that text between two runs of white space, and
    the text is not empty, neither begins nor ends with white space, and is
    left as it is by [trim]. *)
Theorem addTodo_stored_text (now : Z) (created : Date) (s : State) :
  trim (inputText s) <> "" ->
  exists todo rest pre post,
    todos (addTodo now created s) = todo :: rest
    /\ inputText s = pre +:+ text todo +:+ post
    /\ blank pre = true /\ blank post = true
    /\ text todo <> ""
    /\ (forall c, firstUnit (text todo) = Some c -> isWhiteSpace c = false)
    /\ (forall c, lastUnit (text todo) = Some c -> isWhiteSpace c = false)
    /\ trim (text todo) = text todo.
Proof.
  intros H. rewrite (addTodo_stores now created s H).
  destruct (trimStart_decompose (inputText s)) as (pre & E1 & B1).
  destruct (trimEnd_decompose (trimStart (inputText s))) as (post & E2 & B2).
  exists (newTodo now created s), (todos s), pre, post.
  split; [reflexivity|]. split.
  - simpl. unfold trim. now rewrite <- E2.
  - simpl. repeat split; try assumption.
    + apply firstUnit_trim.
    + apply lastUnit_trim.
    + apply trim_idempotent.
Qed.

Lemma addTodo_stored_text_witness :
  let s := setInputText "  Pay rent " (startup 0 0 0) in
  trim (inputText s) <> ""
  /\ exists todo rest pre post,
      todos (addTodo 1762021860000 1762021860000 s) = todo :: rest
      /\ inputText s = pre +:+ text todo +:+ post
      /\ blank pre = true /\ blank post = true
      /\ text todo <> ""
      /\ (forall c, firstUnit (text todo) = Some c -> isWhiteSpace c = false)
      /\ (forall c, lastUnit (text todo) = Some c -> isWhiteSpace c = false)
      /\ trim (text todo) = text todo.
Proof.
  intros s.
  assert (H : trim (inputText s) <> "") by (vm_compute; discriminate).
  split; [exact H|].
  exact (addTodo_stored_text 1762021860000 1762021860000 s H).
Defined.

(** *** Tidy texts *)

Lemma tidy_spec s :
  tidy s = true <-> forall t, In t (todos s) -> tidyText (text t) = true.
Proof. unfold tidy. apply forallb_forall. Qed.

Lemma tidy_step e s : tidy s = true -> tidy (step e s) = true.
Proof.
  rewrite !tidy_spec. intros H.
  destruct e as [now created|i|i o|t| | | | | | | | | | ]; simpl; try exact H.
  - unfold addTodo. destruct (truthy (trim (inputText s))) eqn:E; [|exact H].
    simpl. intros t [<-|Ht]; [|now apply H].
    apply tidyText_trim. now apply truthy_true.
  - intros t Ht. apply in_map_iff in Ht as (u & <- & Hu).
    unfold toggled. destruct (JsString.eqb (id u) i); simpl; now apply H.
  - rewrite deleteTodo_cases. destruct o as [[|[|k]]|]; try exact H.
    simpl. intros t Ht. apply filter_In in Ht. now apply H.
  - unfold saveEdit. destruct (truthy (trim (editingText s))) eqn:E; [|exact H].
    simpl. intros t Ht. apply in_map_iff in Ht as (u & <- & Hu).
    destruct (isEditing (editingId s) u); simpl; [|now apply H].
    apply tidyText_trim. now apply truthy_true.
Qed.

(** When every stored text is not empty and is left as it is by [trim], this
    is so after every run of events: no handler stores an empty text or a
    text with white space around it.  The sample tasks are so. *)
Theorem tidy_run (tr : list Event) (s : State) :
  tidy s = true -> tidy (run tr s) = true.
Proof.
  revert s; induction tr as [|e tr IH]; intros s H; simpl; [assumption|].
  apply IH. now apply tidy_step.
Qed.

Lemma tidy_run_witness :
  let tr := [ SetInputText "  Pay rent "; AddTodo 1762021860000 1762021860000;
              StartEdit (mkTodo "2" "Buy groceries for the week" false shopping medium 0);
              SetEditingText " Buy bread  "; SaveEdit; ToggleTodo "1" ] in
  tidy (startup 0 0 0) = true
  /\ tidy (run tr (startup 0 0 0)) = true.
Proof.
  intros tr.
  assert (H : tidy (startup 0 0 0) = true) by reflexivity.
  split; [exact H|]. exact (tidy_run tr (startup 0 0 0) H).
Defined.

(** *** Submitting twice *)

(** A second [addTodo] right after a first one does nothing, and neither
    does a second [saveEdit] or a [cancelEdit] right after a [saveEdit]:
    the first call leaves the draft, or the edit buffer, empty. *)
Theorem resubmit_noop (n1 n2 : Z) (c1 c2 : Date) (s : State) :
  addTodo n2 c2 (addTodo n1 c1 s) = addTodo n1 c1 s
  /\ saveEdit (saveEdit s) = saveEdit s
  /\ cancelEdit (saveEdit s) = saveEdit s.
Proof.
  split; [|split].
  - destruct (truthy (trim (inputText s))) eqn:E.
    + apply truthy_true in E. now rewrite (addTodo_stores n1 c1 s E).
    + unfold addTodo. now rewrite !E.
  - reflexivity.
  - reflexivity.
Qed.

(** *** Adding, then deleting *)

(** Deleting the task that [addTodo] has just stored gives back the list
    of before, when its identifier was that of no stored task. *)
Theorem add_then_delete (now : Z) (created : Date) (s : State) :
  trim (inputText s) <> "" ->
  unused (newId now) s = true ->
  todos (deleteTodo (newId now) pressDelete (addTodo now created s)) = todos s.
Proof.
  intros H U. rewrite deleteTodo_cases, (addTodo_stores now created s H). simpl.
  rewrite str_eqb_refl. simpl.
  apply filter_other_ids. now apply unused_spec.
Qed.

Lemma add_then_delete_witness :
  let s := setInputText "Pay rent" (startup 0 0 0) in
  trim (inputText s) <> ""
  /\ unused (newId 1762021860000) s = true
  /\ todos (deleteTodo (newId 1762021860000) pressDelete
              (addTodo 1762021860000 1762021860000 s)) = todos s.
Proof.
  intros s.
  assert (H : trim (inputText s) <> "") by (vm_compute; discriminate).
  assert (U : unused (newId 1762021860000) s = true) by (vm_compute; reflexivity).
  split; [exact H|]. split; [exact U|].
  exact (add_then_delete 1762021860000 1762021860000 s H U).
Defined.

(** *** Distinct clock readings *)

Lemma allUnused_spec l s :
  allUnused l s = true <-> forall now, In now l -> unused (newId now) s = true.
Proof. unfold allUnused. apply forallb_forall. Qed.

(** From identifiers that are pairwise distinct, a run whose [addTodo]
    events read pairwise distinct clock values, none of which has the
    identifier of a task stored at the start as its numeral, ends with
    identifiers that are pairwise distinct. *)
Theorem distinct_readings_unique_ids (tr : list Event) (s : State) :
  List.NoDup (ids s) ->
  List.NoDup (readings tr) ->
  allUnused (readings tr) s = true ->
  List.NoDup (ids (run tr s)).
Proof.
  revert s; induction tr as [|e tr IH]; intros s Hs Hr Hu; simpl; [assumption|].
  assert (Hr' : List.NoDup (readings tr) /\
                forall r, In r (readings tr) -> createsNo (newId r) [e] = true).
  { destruct e; simpl in *; try (split; [assumption | reflexivity]).
    apply List.NoDup_cons_iff in Hr as [Hn Hr]. split; [assumption|].
    intros r Hin. rewrite andb_true_r, negb_true_iff, str_eqb_neq.
    intros E. apply newId_inj in E. congruence. }
  destruct Hr' as [Hr' Hc].
  assert (Hf : freshClock [e] s = true).
  { destruct e; try reflexivity. simpl in *.
    apply andb_true_iff in Hu as [Hu _]. rewrite Hu.
    now destruct (truthy (trim (inputText s))). }
  apply IH; [now apply NoDup_ids_step | assumption |].
  apply allUnused_spec. intros r Hin.
  apply unused_step; [now apply Hc|].
  rewrite allUnused_spec in Hu. apply Hu.
  destruct e; simpl; auto.
Qed.

Lemma distinct_readings_unique_ids_witness :
  let tr := [ SetInputText "Pay rent"; AddTodo 1762021860000 1762021860000;
              DeleteTodo "2" pressDelete;
              SetInputText "Call the bank"; AddTodo 1762021860001 1762021860001 ] in
  List.NoDup (ids (startup 0 0 0))
  /\ List.NoDup (readings tr)
  /\ allUnused (readings tr) (startup 0 0 0) = true
  /\ List.NoDup (ids (run tr (startup 0 0 0))).
Proof.
  intros tr.
  assert (H0 : List.NoDup (ids (startup 0 0 0))).
  { vm_compute. repeat constructor; simpl; intuition discriminate. }
  assert (Hr : List.NoDup (readings tr)).
  { simpl. repeat constructor; simpl; intuition discriminate. }
  assert (Hu : allUnused (readings tr) (startup 0 0 0) = true) by (vm_compute; reflexivity).
  split; [exact H0|]. split; [exact Hr|]. split; [exact Hu|].
  exact (distinct_readings_unique_ids tr (startup 0 0 0) H0 Hr Hu).
Defined.

(** *** Toggling *)

Lemma toggled_comm i j t : toggled i (toggled j t) = toggled j (toggled i t).
Proof.
  unfold toggled.
  destruct (JsString.eqb (id t) i) eqn:Ei, (JsString.eqb (id t) j) eqn:Ej;
    simpl; rewrite ?Ei, ?Ej; reflexivity.
Qed.

Lemma id_toggled i t : id (toggled i t) = id t.
Proof. unfold toggled. now destruct (JsString.eqb (id t) i). Qed.

Lemma filter_map_toggled i (p : string -> bool) (l : list Todo) :
  List.filter (fun todo => p (id todo)) (map (toggled i) l)
  = map (toggled i) (List.filter (fun todo => p (id todo)) l).
Proof.
  induction l as [|t l IH]; simpl; [reflexivity|].
  rewrite id_toggled, IH. now destruct (p (id t)).
Qed.

(** The order of two toggles does not matter, nor does the order of a
    toggle and a delete, whatever the identifiers and the answer to the
    dialog. *)
Theorem toggle_commutes (i j : string) (o : Outcome) (s : State) :
  toggleTodo i (toggleTodo j s) = toggleTodo j (toggleTodo i s)
  /\ deleteTodo j o (toggleTodo i s) = toggleTodo i (deleteTodo j o s).
Proof.
  split.
  - unfold toggleTodo, setTodos. simpl. f_equal. rewrite !map_map. apply map_ext.
    intros t. apply toggled_comm.
  - rewrite !deleteTodo_cases. destruct o as [[|[|k]]|]; try reflexivity.
    unfold toggleTodo, setTodos. simpl. f_equal.
    apply (filter_map_toggled i (fun x => negb (JsString.eqb x j))).
Qed.

Lemma completed_toggle_count (l : list Todo) t :
  List.NoDup (map id l) -> In t l ->
  (length (List.filter (fun todo => completed todo) (map (toggled (id t)) l))
   + (if completed t then 1 else 0)
   = length (List.filter (fun todo => completed todo) l)
     + (if completed t then 0 else 1))%nat.
Proof.
  induction l as [|u l IH]; simpl; [tauto|].
  intros H Ht. apply List.NoDup_cons_iff in H as [Hn Hl].
  destruct Ht as [->|Ht].
  - rewrite (map_id_on (toggled (id t))).
    + unfold toggled. rewrite str_eqb_refl. simpl.
      destruct (completed t); simpl; lia.
    + intros v Hv. apply toggled_other. intros E. apply Hn. rewrite <- E.
      now apply in_map.
  - specialize (IH Hl Ht).
    rewrite (toggled_other (id t) u).
    + destruct (completed u); simpl; lia.
    + intros E. apply Hn. rewrite E. now apply in_map.
Qed.

(** With identifiers that are pairwise distinct, toggling a stored task
    moves the number of completed tasks by exactly one, up when the task
    was active and down when it was completed, and keeps the number of
    tasks. *)
Theorem toggle_counts (t : Todo) (s : State) :
  List.NoDup (ids s) -> In t (todos s) ->
  totalCount (toggleTodo (id t) s) = totalCount s
  /\ (completed t = false ->
      completedCount (toggleTodo (id t) s) = S (completedCount s))
  /\ (completed t = true ->
      S (completedCount (toggleTodo (id t) s)) = completedCount s).
Proof.
  intros H Ht. pose proof (completed_toggle_count (todos s) t H Ht) as C.
  unfold totalCount, completedCount. rewrite todos_toggleTodo, length_map.
  split; [reflexivity|]. split; intros E; rewrite E in C; lia.
Qed.

Lemma toggle_counts_witness :
  let t := mkTodo "2" "Buy groceries for the week" false shopping medium 0 in
  List.NoDup (ids (startup 0 0 0))
  /\ In t (todos (startup 0 0 0))
  /\ completedCount (startup 0 0 0) = 1%nat
  /\ completedCount (toggleTodo "2" (startup 0 0 0)) = 2%nat.
Proof.
  intros t.
  assert (H0 : List.NoDup (ids (startup 0 0 0))).
  { vm_compute. repeat constructor; simpl; intuition discriminate. }
  assert (Ht : In t (todos (startup 0 0 0))) by (right; left; reflexivity).
  split; [exact H0|]. split; [exact Ht|]. split; [reflexivity|].
  destruct (toggle_counts t (startup 0 0 0) H0 Ht) as (_ & Hup & _).
  exact (Hup eq_refl).
Defined.

(** Under the filter [active] and with identifiers that are pairwise
    distinct, checking a visible task off takes every task of its
    identifier out of the view, and the task, now completed, is in the view
    under the filter [completed]. *)
Theorem check_off_moves_tab (rt : Runtime.t) (t : Todo) (s : State) :
  List.NoDup (ids s) ->
  filter s = Filter.active ->
  In t (filteredTodos rt s) ->
  (forall u, In u (filteredTodos rt (toggleTodo (id t) s)) -> id u <> id t)
  /\ In (withCompleted true t)
        (filteredTodos rt (setFilter Filter.completed (toggleTodo (id t) s))).
Proof.
  intros H Hf Ht. unfold filteredTodos in Ht. rewrite Hf in Ht.
  apply filter_In in Ht as [Hin Hm]. apply andb_true_iff in Hm as [Ha Hq].
  unfold matchesFilter in Ha. simpl in Ha. rewrite orb_false_r in Ha.
  apply negb_true_iff in Ha. split.
  - intros u Hu E. unfold filteredTodos in Hu. apply filter_In in Hu as [Hu Hm].
    simpl in Hu. apply in_map_iff in Hu as (v & <- & Hv).
    rewrite id_toggled in E.
    assert (v = t) as -> by (apply (same_id_same_task (todos s)); assumption).
    simpl in Hm. rewrite Hf in Hm. unfold toggled in Hm.
    rewrite str_eqb_refl in Hm. unfold matchesFilter in Hm. simpl in Hm.
    rewrite Ha in Hm. discriminate.
  - unfold filteredTodos. apply filter_In. simpl. split.
    + apply in_map_iff. exists t. split; [|assumption].
      unfold toggled. now rewrite str_eqb_refl, Ha.
    + exact Hq.
Qed.

Lemma check_off_moves_tab_witness :
  let t := mkTodo "2" "Buy groceries for the week" false shopping medium 0 in
  let s := setFilter Filter.active (startup 0 0 0) in
  List.NoDup (ids s)
  /\ filter s = Filter.active
  /\ In t (filteredTodos Engine.excerpt s)
  /\ In (withCompleted true t)
        (filteredTodos Engine.excerpt (setFilter Filter.completed (toggleTodo (id t) s))).
Proof.
  intros t s.
  assert (H0 : List.NoDup (ids s)).
  { vm_compute. repeat constructor; simpl; intuition discriminate. }
  assert (Ht : In t (filteredTodos Engine.excerpt s)) by (right; left; reflexivity).
  split; [exact H0|]. split; [reflexivity|]. split; [exact Ht|].
  exact (proj2 (check_off_moves_tab Engine.excerpt t s H0 eq_refl Ht)).
Defined.

(** *** Deleting *)

Lemma filter_twice {A} (p : A -> bool) (l : list A) :
  List.filter p (List.filter p l) = List.filter p l.
Proof.
  induction l as [|a l IH]; simpl; [reflexivity|].
  destruct (p a) eqn:E; simpl; rewrite ?E, IH; reflexivity.
Qed.

Lemma delete_one (i : string) (l : list Todo) :
  List.NoDup (map id l) -> In i (map id l) ->
  S (length (List.filter (fun todo => negb (JsString.eqb (id todo) i)) l)) = length l.
Proof.
  induction l as [|t l IH]; simpl; [tauto|].
  intros H Hi. apply List.NoDup_cons_iff in H as [Hn Hl].
  destruct (JsString.eqb (id t) i) eqn:E; simpl.
  - apply str_eqb_eq in E. subst i. now rewrite filter_other_ids.
  - apply str_eqb_neq in E. destruct Hi as [Hi|Hi]; [contradiction|].
    f_equal. now apply IH.
Qed.

(** A confirmed delete after a delete of the same identifier, confirmed or
    not, gives what the one confirmed delete gives.  With identifiers that
    are pairwise distinct, a confirmed delete of a stored identifier takes
    exactly one task away. *)
Theorem delete_once (i : string) (o : Outcome) (s : State) :
  deleteTodo i pressDelete (deleteTodo i o s) = deleteTodo i pressDelete s
  /\ (List.NoDup (ids s) -> In i (ids s) ->
      S (totalCount (deleteTodo i pressDelete s)) = totalCount s).
Proof.
  split.
  - rewrite !deleteTodo_cases. destruct o as [[|[|k]]|]; try reflexivity.
    unfold setTodos. simpl. f_equal. apply filter_twice.
  - intros H Hi. rewrite deleteTodo_cases. unfold totalCount. simpl.
    now apply delete_one.
Qed.

Lemma delete_once_witness :
  List.NoDup (ids (startup 0 0 0))
  /\ In "2" (ids (startup 0 0 0))
  /\ S (totalCount (deleteTodo "2" pressDelete (startup 0 0 0)))
     = totalCount (startup 0 0 0).
Proof.
  assert (H0 : List.NoDup (ids (startup 0 0 0))).
  { vm_compute. repeat constructor; simpl; intuition discriminate. }
  assert (Hi : In "2" (ids (startup 0 0 0))) by (right; left; reflexivity).
  split; [exact H0|]. split; [exact Hi|].
  exact (proj2 (delete_once "2" pressDelete (startup 0 0 0)) H0 Hi).
Defined.

(** *** The number of tasks *)

Lemma totalCount_ids s : totalCount s = length (ids s).
Proof. unfold totalCount, ids. now rewrite length_map. Qed.

Lemma no_such_id (i : string) (l : list Todo) :
  ~ In i (map id l) -> List.filter (fun todo => JsString.eqb (id todo) i) l = [].
Proof.
  induction l as [|u l IH]; simpl; [reflexivity|]. intros H.
  destruct (JsString.eqb (id u) i) eqn:E.
  - apply str_eqb_eq in E. tauto.
  - apply IH. tauto.
Qed.

Lemma at_most_one_with_id (i : string) (l : list Todo) :
  List.NoDup (map id l) ->
  (length (List.filter (fun todo => JsString.eqb (id todo) i) l) <= 1)%nat.
Proof.
  induction l as [|t l IH]; simpl; [lia|].
  intros H. apply List.NoDup_cons_iff in H as [Hn Hl].
  destruct (JsString.eqb (id t) i) eqn:E; [|now apply IH].
  apply str_eqb_eq in E. subst i. simpl.
  rewrite (no_such_id (id t) l Hn). simpl. lia.
Qed.

Lemma filter_split_length {A} (p : A -> bool) (l : list A) :
  (length (List.filter (fun x => negb (p x)) l) + length (List.filter p l)
   = length l)%nat.
Proof.
  induction l as [|a l IH]; simpl; [reflexivity|].
  destruct (p a); simpl; lia.
Qed.

(** One event and the number of tasks.  The number grows only in an
    [addTodo], and then by one; it shrinks only in a confirmed
    [deleteTodo], and then by the number of stored tasks that have the
    identifier, which is one at most when the identifiers are pairwise
    distinct; every other event keeps it.  The events other than
    [addTodo], [toggleTodo], [deleteTodo] and [saveEdit] leave the list of
    tasks as it is. *)
Theorem count_step (e : Event) (s : State) :
  (totalCount (step e s) = totalCount s
   \/ (exists now created, e = AddTodo now created
                           /\ totalCount (step e s) = S (totalCount s))
   \/ (exists i, e = DeleteTodo i pressDelete
                 /\ (totalCount (step e s)
                     + length (List.filter (fun todo => JsString.eqb (id todo) i)
                                           (todos s))
                     = totalCount s)%nat))
  /\ (totalCount (step e s) <= S (totalCount s))%nat
  /\ (List.NoDup (ids s) -> (totalCount s <= S (totalCount (step e s)))%nat)
  /\ (touchesTodos e = false -> todos (step e s) = todos s).
Proof.
  assert (C : totalCount (step e s) = totalCount s
   \/ (exists now created, e = AddTodo now created
                           /\ totalCount (step e s) = S (totalCount s))
   \/ (exists i, e = DeleteTodo i pressDelete
                 /\ (totalCount (step e s)
                     + length (List.filter (fun todo => JsString.eqb (id todo) i)
                                           (todos s))
                     = totalCount s)%nat)).
  { rewrite !totalCount_ids.
    destruct (ids_step e s) as [E | [(i & -> & E) | (now & created & -> & _ & E)]];
      rewrite E.
    - now left.
    - right; right. exists i. split; [reflexivity|].
      unfold ids. rewrite !length_map.
      apply (filter_split_length (fun todo => JsString.eqb (id todo) i)).
    - right; left. now exists now, created. }
  split; [exact C|]. split; [|split].
  - destruct C as [C | [(now & created & _ & C) | (i & _ & C)]]; lia.
  - intros H. destruct C as [C | [(now & created & _ & C) | (i & _ & C)]]; try lia.
    pose proof (at_most_one_with_id i (todos s) H). lia.
  - destruct e; simpl; intros H; try discriminate; reflexivity.
Qed.

Lemma count_step_witness :
  let s := startup 0 0 0 in
  List.NoDup (ids s)
  /\ (totalCount s <= S (totalCount (step (DeleteTodo "2" pressDelete) s)))%nat
  /\ touchesTodos (SetSearchQuery "milk") = false
  /\ todos (step (SetSearchQuery "milk") s) = todos s.
Proof.
  intros s. unfold s.
  assert (H0 : List.NoDup (ids (startup 0 0 0))).
  { vm_compute. repeat constructor; simpl; intuition discriminate. }
  destruct (count_step (DeleteTodo "2" pressDelete) (startup 0 0 0)) as (_ & _ & Hd & _).
  destruct (count_step (SetSearchQuery "milk") (startup 0 0 0)) as (_ & _ & _ & Hq).
  split; [exact H0|]. split; [exact (Hd H0)|]. split; [reflexivity | exact (Hq eq_refl)].
Defined.

(** *** Editing *)

Lemma withText_same t : withText (text t) t = t.
Proof. now destruct t. Qed.

(** In a state whose texts are tidy and whose identifiers are pairwise
    distinct, opening the editor on a stored task and saving at once is the
    same as cancelling: no task changes. *)
Theorem edit_save_unchanged (t : Todo) (s : State) :
  tidy s = true -> List.NoDup (ids s) -> In t (todos s) ->
  saveEdit (startEdit t s) = cancelEdit s
  /\ todos (saveEdit (startEdit t s)) = todos s.
Proof.
  intros Ht Hn Hin.
  assert (Tt : tidyText (text t) = true) by (now apply (proj1 (tidy_spec s))).
  apply tidyText_spec in Tt as [Ne Tr].
  assert (M : map (fun todo => if isEditing (Some (id t)) todo
                               then withText (text t) todo else todo) (todos s)
              = todos s).
  { apply map_id_on. intros u Hu. simpl.
    destruct (JsString.eqb (id u) (id t)) eqn:E; [|reflexivity].
    apply str_eqb_eq in E.
    assert (u = t) as -> by (apply (same_id_same_task (todos s)); assumption).
    apply withText_same. }
  assert (R : saveEdit (startEdit t s) = cancelEdit s).
  { unfold saveEdit, startEdit.
    cbn [editingText editingId todos setEditingText setEditingId].
    rewrite Tr. apply truthy_true in Ne. rewrite Ne, M. reflexivity. }
  split; [exact R | now rewrite R].
Qed.

Lemma edit_save_unchanged_witness :
  let t := mkTodo "2" "Buy groceries for the week" false shopping medium 0 in
  tidy (startup 0 0 0) = true
  /\ List.NoDup (ids (startup 0 0 0))
  /\ In t (todos (startup 0 0 0))
  /\ saveEdit (startEdit t (startup 0 0 0)) = cancelEdit (startup 0 0 0).
Proof.
  intros t.
  assert (H0 : List.NoDup (ids (startup 0 0 0))).
  { vm_compute. repeat constructor; simpl; intuition discriminate. }
  assert (Ht : In t (todos (startup 0 0 0))) by (right; left; reflexivity).
  split; [reflexivity|]. split; [exact H0|]. split; [exact Ht|].
  exact (proj1 (edit_save_unchanged t (startup 0 0 0) eq_refl H0 Ht)).
Defined.

(** [saveEdit] changes no task when no edit is open, or when the task
    being edited is no longer stored, whatever the edit buffer holds. *)
Theorem saveEdit_stale (s : State) :
  (editingId s = None \/ exists i, editingId s = Some i /\ unused i s = true) ->
  todos (saveEdit s) = todos s.
Proof.
  intros H. unfold saveEdit.
  destruct (truthy (trim (editingText s))); [|reflexivity]. simpl.
  apply map_id_on. intros u Hu.
  destruct H as [-> | (i & -> & U)]; [reflexivity|]. simpl.
  destruct (JsString.eqb (id u) i) eqn:E; [|reflexivity].
  apply str_eqb_eq in E. apply unused_spec in U. exfalso. apply U, in_ids. eauto.
Qed.

Lemma saveEdit_stale_witness :
  let t := mkTodo "2" "Buy groceries for the week" false shopping medium 0 in
  let s := setEditingText "Buy bread"
             (deleteTodo "2" pressDelete (startEdit t (startup 0 0 0))) in
  (exists i, editingId s = Some i /\ unused i s = true)
  /\ todos (saveEdit s) = todos s.
Proof.
  intros t s.
  assert (H : exists i, editingId s = Some i /\ unused i s = true).
  { exists "2". split; reflexivity. }
  split; [exact H|]. exact (saveEdit_stale s (or_intror H)).
Defined.

End RunFacts.

(** ** More on the derived values *)

Module ViewFacts.
Import JsString JsStringFacts Engine TodoApp Runs TextFacts Handlers Views.

Lemma filter_sublist_impl {A} (p r : A -> bool) (l : list A) :
  (forall x, p x = true -> r x = true) ->
  sublist (List.filter p l) (List.filter r l).
Proof.
  intros H. induction l as [|a l IH]; simpl; [constructor|].
  destruct (p a) eqn:P.
  - rewrite (H a P). now constructor.
  - destruct (r a); [now constructor | assumption].
Qed.

Lemma matchesSearch_narrow (rt : Runtime.t) q q' t :
  includes (Runtime.toLowerCase rt q') (Runtime.toLowerCase rt q) = true ->
  matchesSearch rt q' t = true -> matchesSearch rt q t = true.
Proof. unfold matchesSearch. intros H1 H2. exact (includes_trans _ _ _ H2 H1). Qed.

Lemma isAscii_middle a q b : isAscii (a +:+ q +:+ b) = true -> isAscii q = true.
Proof.
  rewrite !isAscii_app, !andb_true_iff. tauto.
Qed.

(** *** The header and the tabs *)

(** The numbers of the header are the lengths of the views with an empty
    query: [completedCount] is the length of the view under [completed],
    [totalCount] that of the view under [all], and the view under [active]
    holds the difference. *)
Theorem header_counts_views (rt : Runtime.t) (s : State) :
  completedCount s
  = length (filteredTodos rt (setSearchQuery "" (setFilter Filter.completed s)))
  /\ totalCount s
    = length (filteredTodos rt (setSearchQuery "" (setFilter Filter.all s)))
  /\ totalCount s
    = (completedCount s
       + length (filteredTodos rt (setSearchQuery "" (setFilter Filter.active s))))%nat.
Proof.
  rewrite !filteredTodos_set. unfold completedCount, totalCount.
  induction (todos s) as [|t l (IH1 & IH2 & IH3)]; [now simpl|].
  cbn [List.filter].
  rewrite (matchesFilter_all t), (matchesFilter_active t),
    (matchesFilter_completed t), matchesSearch_empty.
  destruct (completed t); cbn [negb andb length]; repeat split; lia.
Qed.

(** *** Searching *)

(** A query whose lower-case form contains that of [q] shows fewer tasks:
    its view is, in this order, a part of the view under [q].  So it is
    for a query of Basic Latin that contains [q], whatever the case tables
    of the engine. *)
Theorem search_narrows (rt : Runtime.t) (a q b q' : string) (s : State) :
  (includes (Runtime.toLowerCase rt q') (Runtime.toLowerCase rt q) = true ->
   sublist (filteredTodos rt (setSearchQuery q' s))
           (filteredTodos rt (setSearchQuery q s)))
  /\ (isAscii (a +:+ q +:+ b) = true ->
      sublist (filteredTodos rt (setSearchQuery (a +:+ q +:+ b) s))
              (filteredTodos rt (setSearchQuery q s))).
Proof.
  assert (G : forall x, includes (Runtime.toLowerCase rt x) (Runtime.toLowerCase rt q) = true ->
              sublist (filteredTodos rt (setSearchQuery x s))
                      (filteredTodos rt (setSearchQuery q s))).
  { intros x Hx. unfold filteredTodos. simpl. apply filter_sublist_impl.
    intros t H. apply andb_true_iff in H as [H1 H2].
    rewrite H1. simpl. now apply (matchesSearch_narrow rt q x). }
  split; [apply G|]. intros H. apply G.
  rewrite (Runtime.toLowerCase_ascii rt _ H),
    (Runtime.toLowerCase_ascii rt q (isAscii_middle a q b H)).
  apply includes_spec. exists (asciiLower a), (asciiLower b).
  now rewrite !asciiLower_app.
Qed.

Lemma search_narrows_witness :
  isAscii ("buy " +:+ "gro" +:+ "ceries") = true
  /\ sublist (filteredTodos Engine.excerpt
                (setSearchQuery ("buy " +:+ "gro" +:+ "ceries") (startup 0 0 0)))
             (filteredTodos Engine.excerpt (setSearchQuery "gro" (startup 0 0 0))).
Proof.
  split; [reflexivity|].
  exact (proj2 (search_narrows Engine.excerpt "buy " "gro" "ceries" ""
                  (startup 0 0 0)) eq_refl).
Defined.

(** The view does not depend on the case of the letters of the query: two
    queries with the same lower-case form give the same view, and so a
    query and its lower-case form do. *)
Theorem search_case_blind (rt : Runtime.t) (q q' : string) (s : State) :
  (Runtime.toLowerCase rt q = Runtime.toLowerCase rt q' ->
   filteredTodos rt (setSearchQuery q s) = filteredTodos rt (setSearchQuery q' s))
  /\ filteredTodos rt (setSearchQuery (Runtime.toLowerCase rt q) s)
    = filteredTodos rt (setSearchQuery q s).
Proof.
  assert (H : forall x y, Runtime.toLowerCase rt x = Runtime.toLowerCase rt y ->
              filteredTodos rt (setSearchQuery x s) = filteredTodos rt (setSearchQuery y s)).
  { intros x y E. unfold filteredTodos, matchesSearch. simpl. now rewrite E. }
  split; [apply H|]. apply H, Runtime.toLowerCase_idempotent.
Qed.

Lemma search_case_blind_witness :
  Runtime.toLowerCase Engine.excerpt "GROCERIES"
  = Runtime.toLowerCase Engine.excerpt "Groceries"
  /\ filteredTodos Engine.excerpt (setSearchQuery "GROCERIES" (startup 0 0 0))
    = filteredTodos Engine.excerpt (setSearchQuery "Groceries" (startup 0 0 0)).
Proof.
  split; [reflexivity|].
  exact (proj1 (search_case_blind Engine.excerpt "GROCERIES" "Groceries"
                  (startup 0 0 0)) eq_refl).
Defined.

End ViewFacts.

(** ** The tables and the rendered list *)

Module RenderFacts.
Import JsString JsStringFacts Engine TodoApp Runs Render Handlers Views RunFacts ViewFacts.

(** *** Looking up a category or a priority *)

(** [getCategoryInfo] and [getPriorityInfo] never give [undefined]: every
    category, and every priority, has an entry in its table, which is the
    entry found.  The identifiers of the tables are those of the categories,
    and of the priorities, each once, so that the cast made when a chip is
    pressed gives the category, or the priority, of that chip. *)
Theorem info_lookup_total :
  (forall c, exists info,
      getCategoryInfo c = Some info
      /\ In info CATEGORIES /\ CategoryInfo.id info = categoryId c)
  /\ (forall p, exists info,
        getPriorityInfo p = Some info
        /\ In info PRIORITIES /\ PriorityInfo.id info = priorityId p)
  /\ map CategoryInfo.id CATEGORIES = map categoryId [personal; work; shopping; health]
  /\ map PriorityInfo.id PRIORITIES = map priorityId [low; medium; high]
  /\ (forall c, asCategory (categoryId c) = Some c)
  /\ (forall p, asPriority (priorityId p) = Some p)
  /\ (forall info, In info CATEGORIES ->
        exists c, asCategory (CategoryInfo.id info) = Some c
                  /\ getCategoryInfo c = Some info)
  /\ (forall info, In info PRIORITIES ->
        exists p, asPriority (PriorityInfo.id info) = Some p
                  /\ getPriorityInfo p = Some info).
Proof.
  repeat split; try reflexivity.
  - intros c. destruct c; eexists; (split; [reflexivity|]); simpl; tauto.
  - intros p. destruct p; eexists; (split; [reflexivity|]); simpl; tauto.
  - intros c. now destruct c.
  - intros p. now destruct p.
  - intros info [<-|[<-|[<-|[<-|[]]]]];
      [exists personal | exists work | exists shopping | exists health]; now split.
  - intros info [<-|[<-|[<-|[]]]];
      [exists low | exists medium | exists high]; now split.
Qed.

Lemma info_lookup_total_witness :
  In (CategoryInfo.mk "work" "Work" "bg-blue-500" [55357%N; 56508%N]) CATEGORIES
  /\ exists c, asCategory "work" = Some c
               /\ getCategoryInfo c
                  = Some (CategoryInfo.mk "work" "Work" "bg-blue-500" [55357%N; 56508%N]).
Proof.
  assert (H : In (CategoryInfo.mk "work" "Work" "bg-blue-500" [55357%N; 56508%N])
                 CATEGORIES) by (right; left; reflexivity).
  split; [exact H|].
  destruct info_lookup_total as (_ & _ & _ & _ & _ & _ & Hc & _).
  exact (Hc _ H).
Defined.

(** *** The rows *)

Lemma keys_rows (rt : Runtime.t) s : map key (rows rt s) = map id (filteredTodos rt s).
Proof. unfold rows. rewrite map_map. reflexivity. Qed.

Lemma inEditor_renderRow s t : inEditor (renderRow s t) = isEditing (editingId s) t.
Proof. unfold inEditor, renderRow. simpl. now destruct (isEditing (editingId s) t). Qed.

Lemma editors_rows (rt : Runtime.t) s :
  length (List.filter inEditor (rows rt s))
  = length (List.filter (isEditing (editingId s)) (filteredTodos rt s)).
Proof.
  unfold rows. induction (filteredTodos rt s) as [|t l IH]; simpl; [reflexivity|].
  rewrite inEditor_renderRow. destruct (isEditing (editingId s) t); simpl; now rewrite IH.
Qed.

Lemma at_most_one_id (e : option string) (l : list Todo) :
  List.NoDup (map id l) -> (length (List.filter (isEditing e) l) <= 1)%nat.
Proof.
  destruct e as [i|].
  - apply (at_most_one_with_id i l).
  - intros _. induction l as [|t l IH]; simpl; lia.
Qed.

(** With identifiers that are pairwise distinct, the keys of the rows are
    pairwise distinct and at most one row holds the editor. *)
Theorem rows_keys_distinct (rt : Runtime.t) (s : State) :
  List.NoDup (ids s) ->
  List.NoDup (map key (rows rt s))
  /\ (length (List.filter inEditor (rows rt s)) <= 1)%nat.
Proof.
  intros H. split.
  - rewrite keys_rows. unfold filteredTodos. now apply NoDup_ids_filter.
  - rewrite editors_rows. apply at_most_one_id.
    unfold filteredTodos. now apply NoDup_ids_filter.
Qed.

Lemma rows_keys_distinct_witness :
  let s := startEdit (mkTodo "2" "Buy groceries for the week" false shopping medium 0)
                     (startup 0 0 0) in
  List.NoDup (ids s)
  /\ List.NoDup (map key (rows Engine.excerpt s))
  /\ length (List.filter inEditor (rows Engine.excerpt s)) = 1%nat.
Proof.
  intros s.
  assert (H0 : List.NoDup (ids s)).
  { vm_compute. repeat constructor; simpl; intuition discriminate. }
  split; [exact H0|].
  split; [exact (proj1 (rows_keys_distinct Engine.excerpt s H0)) | reflexivity].
Defined.

Lemma getCategoryInfo_some c : getCategoryInfo c <> None.
Proof. now destruct c. Qed.

Lemma getPriorityInfo_some p : getPriorityInfo p <> None.
Proof. now destruct p. Qed.

(** There is one row for each visible task, in the order of the view.  A
    row has the delete button exactly when it does not hold the editor; a
    row that shows a task shows a category and a priority that were found
    in the tables; and after [saveEdit] and after [cancelEdit] no row holds
    the editor. *)
Theorem rows_shape (rt : Runtime.t) (s : State) :
  map key (rows rt s) = map id (filteredTodos rt s)
  /\ (forall r, In r (rows rt s) ->
        deleteButton r = negb (inEditor r)
        /\ forall body cat pri, content r = Display body cat pri ->
             cat <> None /\ pri <> None)
  /\ List.filter inEditor (rows rt (saveEdit s)) = []
  /\ List.filter inEditor (rows rt (cancelEdit s)) = [].
Proof.
  assert (N : forall s', editingId s' = None -> List.filter inEditor (rows rt s') = []).
  { intros s' E. unfold rows.
    induction (filteredTodos rt s') as [|t l IH]; simpl; [reflexivity|].
    rewrite inEditor_renderRow, E. simpl. exact IH. }
  split; [apply keys_rows|]. split; [|split; apply N; reflexivity].
  intros r Hr. unfold rows in Hr. apply in_map_iff in Hr as (t & <- & _).
  split.
  - now rewrite inEditor_renderRow.
  - unfold renderRow. simpl. destruct (isEditing (editingId s) t); [discriminate|].
    intros body cat pri [= _ <- <-].
    split; [apply getCategoryInfo_some | apply getPriorityInfo_some].
Qed.

Lemma rows_shape_witness :
  In (renderRow (startup 0 0 0)
        (mkTodo "3" "Morning workout" true health low 0))
     (rows Engine.excerpt (startup 0 0 0))
  /\ deleteButton (renderRow (startup 0 0 0)
                     (mkTodo "3" "Morning workout" true health low 0)) = true.
Proof.
  assert (H : In (renderRow (startup 0 0 0)
                    (mkTodo "3" "Morning workout" true health low 0))
                 (rows Engine.excerpt (startup 0 0 0))) by (right; right; left; reflexivity).
  split; [exact H|].
  destruct (rows_shape Engine.excerpt (startup 0 0 0)) as (_ & Hr & _).
  exact (proj1 (Hr _ H)).
Defined.

(** *** The empty list *)

Lemma filteredTodos_nil (rt : Runtime.t) s :
  filteredTodos rt s = [] <->
  forall t, In t (todos s) ->
            ~ (passesStatus (filter s) t
               /\ occursLowered rt (searchQuery s) (text t)).
Proof.
  unfold filteredTodos. split.
  - intros E t Ht [H1 H2].
    assert (In t []) as [].
    rewrite <- E. apply filter_In. split; [assumption|].
    apply andb_true_iff. split; [now apply matchesFilter_spec | now apply matchesSearch_spec].
  - intros H. induction (todos s) as [|t l IH]; simpl; [reflexivity|].
    destruct (matchesFilter (filter s) t && matchesSearch rt (searchQuery s) t) eqn:E.
    + exfalso. apply (H t); [now left|]. apply andb_true_iff in E as [E1 E2].
      split; [now apply matchesFilter_spec | now apply matchesSearch_spec].
    + apply IH. intros u Hu. apply H. now right.
Qed.

(** The lines "No tasks yet" and "Add your first task to get started!" are
    shown exactly when the query is empty and no stored task passes the
    status filter; under the filter [all], exactly when the query is empty
    and no task is stored.  Under another filter they are shown also when
    tasks are stored.  Nothing is shown in place of the list exactly when a
    task is visible. *)
Theorem emptyState_spec (rt : Runtime.t) (s : State) :
  (emptyState rt s = Some ("No tasks yet", "Add your first task to get started!") <->
   searchQuery s = "" /\ forall t, In t (todos s) -> ~ passesStatus (filter s) t)
  /\ (filter s = Filter.all ->
      (emptyState rt s = Some ("No tasks yet", "Add your first task to get started!") <->
       searchQuery s = "" /\ todos s = []))
  /\ (emptyState rt s = None <-> exists t, In t (filteredTodos rt s))
  /\ (exists s', todos s' <> []
        /\ emptyState rt s' = Some ("No tasks yet", "Add your first task to get started!")).
Proof.
  assert (A : emptyState rt s = Some ("No tasks yet", "Add your first task to get started!") <->
              searchQuery s = "" /\ forall t, In t (todos s) -> ~ passesStatus (filter s) t).
  { unfold emptyState. destruct (filteredTodos rt s) as [|u l] eqn:F; simpl.
    - pose proof (proj1 (filteredTodos_nil rt s) F) as F'. clear F. rename F' into F.
      destruct (searchQuery s) as [|c q] eqn:Q; simpl.
      + split; [|reflexivity]. intros _. split; [reflexivity|].
        intros t Ht Hp. apply (F t Ht). split; [assumption | apply occursLowered_empty].
      + split; [discriminate | intros [? _]; discriminate].
    - split; [discriminate|]. intros [Q H]. exfalso.
      assert (Hu : In u (filteredTodos rt s)) by (rewrite F; now left).
      unfold filteredTodos in Hu. apply filter_In in Hu as [Hu Hm].
      apply andb_true_iff in Hm as [Hm _]. apply matchesFilter_spec in Hm.
      now apply (H u). }
  split; [exact A|]. split; [|split].
  - intros Hf. rewrite A, Hf. simpl. split; intros [Q H]; (split; [assumption|]).
    + destruct (todos s) as [|t l]; [reflexivity|]. exfalso. apply (H t); [now left | exact I].
    + rewrite H. intros t [].
  - unfold emptyState. destruct (filteredTodos rt s) as [|u l]; simpl.
    + split; [discriminate | intros [t []]].
    + split; [|reflexivity]. intros _. exists u. now left.
  - exists (setFilter Filter.completed
              (setTodos [mkTodo "1" "Pay rent" false personal medium 0] initialState)).
    split; [discriminate | reflexivity].
Qed.

Lemma emptyState_spec_witness :
  filter initialState = Filter.all
  /\ searchQuery initialState = ""
  /\ todos initialState = []
  /\ emptyState Engine.excerpt initialState
     = Some ("No tasks yet", "Add your first task to get started!").
Proof.
  destruct (emptyState_spec Engine.excerpt initialState) as (_ & Hall & _).
  split; [reflexivity|]. split; [reflexivity|]. split; [reflexivity|].
  exact (proj2 (Hall eq_refl) (conj eq_refl eq_refl)).
Defined.

(** *** The chips of the add form *)

(** Exactly one category chip and exactly one priority chip are shown as
    selected: those of the selected category and of the selected
    priority. *)
Theorem one_chip_selected (s : State) :
  map fst (List.filter snd (categoryChips s)) = [categoryId (selectedCategory s)]
  /\ map fst (List.filter snd (priorityChips s)) = [priorityId (selectedPriority s)].
Proof.
  unfold categoryChips, priorityChips.
  destruct (selectedCategory s), (selectedPriority s); split; reflexivity.
Qed.

End RenderFacts.
